(** * Order-status overview, QR-code table helper and profile form

  A shallow embedding of the route handlers of the embedded admin app:

  - [Orders]  : [getOrderFulfillmentStatus] and the orders [loader]
                (app/routes/app.orders.jsx);
  - [QRCodes] : the [truncate] helper of the QR-code index route;
  - [Profile] : [sanitizeText] and the profile form [action].

  JavaScript strings are modelled by [string]; one character stands for
  one UTF-16 code unit (the code units 0..255).  A value that may be
  [null] or [undefined] is an [option].  Integer-valued Numbers (counts,
  lengths) are [Z]; the percentages, which the code computes in double
  precision, and the age that [Number.parseInt] returns are IEEE 754
  binary64 values ([spec_float], 53 bits of precision). *)

From Stdlib Require Import ZArith List String Ascii Bool Lia.
From Stdlib Require Import Floats.SpecFloat.
From stdpp Require Import base decidable option list strings gmap fin_maps.

Local Open Scope string_scope.
Local Open Scope Z_scope.

(** ** JavaScript primitives shared by the routes *)

Module JS.

(** [a || b] on values that are a string, [null] or [undefined]: the
    empty string is falsy, as [null] and [undefined] are. *)
Definition truthy (v : option string) : bool :=
  match v with
  | Some s => negb (String.eqb s "")
  | None => false
  end.

Definition or_else (a b : option string) : option string :=
  if truthy a then a else b.

(** [hay.startsWith(needle)] and [hay.includes(needle)]. *)
Fixpoint startsWith (hay needle : string) : bool :=
  match needle, hay with
  | EmptyString, _ => true
  | String _ _, EmptyString => false
  | String a needle', String b hay' =>
      Ascii.eqb a b && startsWith hay' needle'
  end.

Fixpoint includes (hay needle : string) : bool :=
  startsWith hay needle ||
  match hay with
  | EmptyString => false
  | String _ hay' => includes hay' needle
  end.

(** White space and line terminators that [trim] and [parseInt] strip,
    among the code units 0..255: TAB, LF, VT, FF, CR, SP and NBSP. *)
Definition isWhiteSpace (c : ascii) : bool :=
  let n := Z.of_N (N_of_ascii c) in
  ((9 <=? n) && (n <=? 13)) || (n =? 32) || (n =? 160).

Fixpoint trimStart (s : string) : string :=
  match s with
  | String c rest => if isWhiteSpace c then trimStart rest else s
  | EmptyString => EmptyString
  end.

Fixpoint trimEnd (s : string) : string :=
  match s with
  | String c rest =>
      match trimEnd rest with
      | EmptyString => if isWhiteSpace c then EmptyString
                       else String c EmptyString
      | kept => String c kept
      end
  | EmptyString => EmptyString
  end.

Definition trim (s : string) : string := trimEnd (trimStart s).

(** A string of white space only. *)
Fixpoint isBlank (s : string) : bool :=
  match s with
  | String c rest => isWhiteSpace c && isBlank rest
  | EmptyString => true
  end.

(** [text.slice(start, end)] with integer arguments. *)
Definition slice (text : string) (start end_ : Z) : string :=
  let len := Z.of_nat (String.length text) in
  let from := if start <? 0 then Z.max (len + start) 0 else Z.min start len in
  let to := if end_ <? 0 then Z.max (len + end_) 0 else Z.min end_ len in
  String.substring (Z.to_nat from) (Z.to_nat (Z.max (to - from) 0)) text.

Definition digitValue (c : ascii) : option Z :=
  let n := Z.of_N (N_of_ascii c) in
  if (48 <=? n) && (n <=? 57) then Some (n - 48) else None.

(** The value of the longest prefix of decimal digits, [None] when it is
    empty; [acc] is the value of the digits read so far. *)
Fixpoint parseDigits (s : string) (acc : option Z) : option Z :=
  match s with
  | String c rest =>
      match digitValue c with
      | Some d =>
          parseDigits rest
            (Some (10 * (match acc with Some z => z | None => 0 end) + d))
      | None => acc
      end
  | EmptyString => acc
  end.

(** The steps of [parseInt(s, 10)] before the result is made a Number:
    leading white space is skipped, an optional sign is read, and the
    longest run of decimal digits gives the mathematical integer.  [None]
    when there is no digit; otherwise whether the sign is "-", and the
    integer. *)
Definition parseIntMath (s : string) : option (bool * Z) :=
  match trimStart s with
  | String "-" rest => option_map (pair true) (parseDigits rest None)
  | String "+" rest => option_map (pair false) (parseDigits rest None)
  | unsigned => option_map (pair false) (parseDigits unsigned None)
  end.

(** An outcome of a handler: a returned value or a thrown error. *)
Inductive outcome (E A : Type) : Type :=
| Return (a : A)
| Throw (e : E).
Arguments Return {E A} a.
Arguments Throw {E A} e.

End JS.

(** ** Numbers: IEEE 754 binary64 arithmetic *)

Module Number.

Definition prec : Z := 53.
Definition emax : Z := 1024.

(** The Number of an integer literal or of an integer count (rounded to
    nearest, ties to even, beyond 2^53). *)
Definition of_Z (z : Z) : spec_float := binary_normalize prec emax z 0 false.

Definition mul : spec_float -> spec_float -> spec_float := SFmul prec emax.
Definition div : spec_float -> spec_float -> spec_float := SFdiv prec emax.
Definition add : spec_float -> spec_float -> spec_float := SFadd prec emax.

(** [Math.round(x)]: the integer nearest to [x], a tie going towards
    +infinity; zeros, infinities and NaN are returned as they are, and a
    result of zero keeps the sign of [x].  For [x = v * 2^e] with [e < 0]
    the integer is floor (x + 1/2) = floor ((2 v + 2^-e) / 2^(-e + 1)),
    computed with shifts. *)
Definition round (x : spec_float) : spec_float :=
  match x with
  | S754_finite s m e =>
      if 0 <=? e then x
      else
        let v := if s then Z.neg m else Z.pos m in
        let z := Z.shiftr (2 * v + Z.shiftl 1 (- e)) (- e + 1) in
        if z =? 0 then S754_zero s else of_Z z
  | _ => x
  end.

(** Structural equality of two binary64 values. *)
Definition same (x y : spec_float) : bool :=
  match x, y with
  | S754_zero a, S754_zero b => Bool.eqb a b
  | S754_infinity a, S754_infinity b => Bool.eqb a b
  | S754_nan, S754_nan => true
  | S754_finite a m e, S754_finite b n f =>
      Bool.eqb a b && Pos.eqb m n && Z.eqb e f
  | _, _ => false
  end.

(** The decimal [h / 100] as a Number: the double nearest to it. *)
Definition hundredths (h : Z) : spec_float := div (of_Z h) (of_Z 100).

(** The Number of [sign * mathInt]: -0 or +0 when the integer is 0, else
    the double nearest to it (an infinity beyond the range of doubles). *)
Definition toNumber (negative : bool) (mathInt : Z) : spec_float :=
  if mathInt =? 0 then S754_zero negative
  else of_Z (if negative then - mathInt else mathInt).

(** [Number.parseInt(s, 10)]: NaN when [s] has no leading integer. *)
Definition parseInt (s : string) : spec_float :=
  match JS.parseIntMath s with
  | None => S754_nan
  | Some (negative, mathInt) => toNumber negative mathInt
  end.

(** [Number.isNaN(x)] *)
Definition isNaN (x : spec_float) : bool :=
  match x with S754_nan => true | _ => false end.

(** [x < y] *)
Definition lt : spec_float -> spec_float -> bool := SFltb.

End Number.

(** ** app/routes/app.orders.jsx *)

Module Orders.

(** The fields the GraphQL query selects. *)
Record Fulfillment := {
  status : option string;
  displayStatus : option string
}.

Record Order := {
  id : string;
  name : string;
  createdAt : string;
  displayFulfillmentStatus : option string;
  fulfillments : option (list Fulfillment)
}.

(** [fulfillment.displayStatus || fulfillment.status] *)
Definition effectiveStatus (fulfillment : Fulfillment) : option string :=
  JS.or_else (displayStatus fulfillment) (status fulfillment).

(** The [for ... of] loop of lines 22-34: [Some label] when one of the
    three [return]s inside the loop runs, [None] when the loop ends. *)
Fixpoint primaryScan (fulfillments : list Fulfillment) : option string :=
  match fulfillments with
  | [] => None
  | fulfillment :: rest =>
      let displayStatus := effectiveStatus fulfillment in
      if decide (displayStatus = Some "DELIVERED") then Some "DELIVERED"
      else if decide (displayStatus = Some "FULFILLED") then Some "FULFILLED"
      else if decide (displayStatus = Some "IN_TRANSIT") then Some "IN_TRANSIT"
      else primaryScan rest
  end.

(** [fulfillments.some((f) => (f.displayStatus || f.status) === "FULFILLED")] *)
Definition hasFulfilled (fulfillments : list Fulfillment) : bool :=
  existsb (fun f => bool_decide (effectiveStatus f = Some "FULFILLED"))
          fulfillments.

(** The [return] statement that produces the result. *)
Inductive ReturnSite :=
| NoFulfillments    (* line 17 *)
| PrimaryLoop       (* lines 26, 29, 32 *)
| SecondaryScan     (* line 42 *)
| DefaultReturn.    (* line 46 *)

(** The body of [getOrderFulfillmentStatus], with the [return] taken. *)
Definition classify (order : Order) : ReturnSite * string :=
  let fulfillments := default [] (fulfillments order) in
  if (Z.of_nat (length fulfillments) =? 0) then
    (NoFulfillments, "NOT_DELIVERED")
  else
    match primaryScan fulfillments with
    | Some label => (PrimaryLoop, label)
    | None =>
        if hasFulfilled fulfillments then (SecondaryScan, "FULFILLED")
        else (DefaultReturn, "NOT_DELIVERED")
    end.

Definition getOrderFulfillmentStatus (order : Order) : string :=
  snd (classify order).

Definition returnSite (order : Order) : ReturnSite :=
  fst (classify order).

(** The variant of the classifier without lines 36-43. *)
Definition getOrderFulfillmentStatus_primaryOnly (order : Order) : string :=
  let fulfillments := default [] (fulfillments order) in
  if (Z.of_nat (length fulfillments) =? 0) then "NOT_DELIVERED"
  else
    match primaryScan fulfillments with
    | Some label => label
    | None => "NOT_DELIVERED"
    end.

(** The three statuses the primary loop returns on. *)
Definition recognized (s : option string) : Prop :=
  s = Some "DELIVERED" \/ s = Some "FULFILLED" \/ s = Some "IN_TRANSIT".

(** An order with the given fulfillments. *)
Definition orderOf (fs : option (list Fulfillment)) : Order :=
  {| id := "gid://shopify/Order/1"; name := "#1001";
     createdAt := "2024-01-01T00:00:00Z";
     displayFulfillmentStatus := None; fulfillments := fs |}.

Definition withStatus (s : option string) : Fulfillment :=
  {| status := s; displayStatus := None |}.

Definition withDisplayStatus (s : option string) : Fulfillment :=
  {| status := None; displayStatus := s |}.


(** *** The orders loader *)

(** The body of the GraphQL response, as far as the loader reads it. *)
Record GraphQLError := { message : option string }.

Record OrderEdge := { node : Order }.

Record OrderConnection := { edges : option (list OrderEdge) }.

Record ResponseData := { orders : option OrderConnection }.

Record ResponseJson := {
  errors : option (list GraphQLError);
  data : option ResponseData
}.

(** What a rejected [admin.graphql(...)] or [response.json()] throws. *)
Record Exception := {
  exn_name : string;
  exn_message : option string
}.

(** The two awaited calls of lines 53-72: they give the parsed body, or
    throw inside the [try] block. *)
Inductive FetchOutcome :=
| Resolved (json : ResponseJson)
| Rejected (error : Exception).

Record Percentages := {
  delivered : spec_float;
  notDelivered : spec_float;
  byStatus : gmap string spec_float
}.

(** The two shapes of the object the loader returns. *)
Inductive LoaderData :=
| AccessDenied (error : string) (message : string)
| Overview (totalOrders : Z) (statusCounts : gmap string Z)
           (percentages : Percentages) (error : option string).

Definition remediation : string :=
  "This app needs to be reinstalled to access orders. Please uninstall and reinstall the app to grant order permissions.".

(** [m?.includes("Access denied") || m?.includes("not approved") ||
     m?.includes("Order object")], as a condition. *)
Definition isPermissionMessage (m : option string) : bool :=
  match m with
  | None => false
  | Some text =>
      JS.includes text "Access denied" ||
      JS.includes text "not approved" ||
      JS.includes text "Order object"
  end.

(** Lines 75-81: [json.errors] is truthy and [some] error matches. *)
Definition accessDenied (json : ResponseJson) : bool :=
  match errors json with
  | Some errorList =>
      existsb (fun error => isPermissionMessage (message error)) errorList
  | None => false
  end.

(** [json.data?.orders?.edges?.map((edge) => edge.node) ?? []] *)
Definition ordersOf (json : ResponseJson) : list Order :=
  match data json with
  | Some d =>
      match orders d with
      | Some connection =>
          match edges connection with
          | Some edgeList => map node edgeList
          | None => []
          end
      | None => []
      end
  | None => []
  end.

Definition initialCounts : gmap string Z :=
  <["DELIVERED" := 0]> (<["NOT_DELIVERED" := 0]>
    (<["FULFILLED" := 0]> (<["IN_TRANSIT" := 0]> ∅))).

(** One iteration of the loop of lines 103-108. *)
Definition countOrder (statusCounts : gmap string Z) (order : Order)
  : gmap string Z :=
  let status := getOrderFulfillmentStatus order in
  match statusCounts !! status with          (* hasOwnProperty(status) *)
  | Some n => <[status := n + 1]> statusCounts
  | None => statusCounts
  end.

Definition countStatuses (orderList : list Order) : gmap string Z :=
  fold_left countOrder orderList initialCounts.

(** [statusCounts.KEY] for a key the object has. *)
Definition bucket (statusCounts : gmap string Z) (key : string) : Z :=
  default 0 (statusCounts !! key).

Definition deliveredCount (statusCounts : gmap string Z) : Z :=
  bucket statusCounts "DELIVERED".

Definition notDeliveredCount (statusCounts : gmap string Z) : Z :=
  bucket statusCounts "NOT_DELIVERED" +
  bucket statusCounts "FULFILLED" +
  bucket statusCounts "IN_TRANSIT".

(** [Math.round((count / totalOrders) * 100 * 100)]: the percentage in
    hundredths, before the final division. *)
Definition roundedHundredths (count totalOrders : Z) : spec_float :=
  Number.round
    (Number.mul
       (Number.mul (Number.div (Number.of_Z count) (Number.of_Z totalOrders))
                   (Number.of_Z 100))
       (Number.of_Z 100)).

(** [totalOrders > 0 ? Math.round((count / totalOrders) * 100 * 100) / 100 : 0],
    the expression the loader writes out six times. *)
Definition percentOf (count totalOrders : Z) : spec_float :=
  if 0 <? totalOrders then
    Number.div (roundedHundredths count totalOrders) (Number.of_Z 100)
  else Number.of_Z 0.

(** Lines 117-147 and 152-156: the [percentages] object. *)
Definition percentagesOf (statusCounts : gmap string Z) (totalOrders : Z)
  : Percentages :=
  let deliveredPercent := percentOf (deliveredCount statusCounts) totalOrders in
  let notDeliveredPercent :=
    percentOf (notDeliveredCount statusCounts) totalOrders in
  let percentageByStatus : gmap string spec_float :=
    <["DELIVERED" := percentOf (bucket statusCounts "DELIVERED") totalOrders]>
   (<["NOT_DELIVERED" :=
        percentOf (bucket statusCounts "NOT_DELIVERED") totalOrders]>
   (<["FULFILLED" := percentOf (bucket statusCounts "FULFILLED") totalOrders]>
   (<["IN_TRANSIT" :=
        percentOf (bucket statusCounts "IN_TRANSIT") totalOrders]> ∅))) in
  {| delivered := deliveredPercent;
     notDelivered := notDeliveredPercent;
     byStatus := percentageByStatus |}.

(** Lines 92-158. *)
Definition overview (orderList : list Order) : LoaderData :=
  let statusCounts := countStatuses orderList in
  let totalOrders := Z.of_nat (length orderList) in
  Overview totalOrders statusCounts
           (percentagesOf statusCounts totalOrders) None.

(** The loader after [authenticate.admin]: the [try] block on the outcome
    of the fetch, and the [catch] clause. *)
Definition loader (fetch : FetchOutcome) : JS.outcome Exception LoaderData :=
  match fetch with
  | Resolved json =>
      if accessDenied json then
        JS.Return (AccessDenied "access_denied" remediation)
      else JS.Return (overview (ordersOf json))
  | Rejected error =>
      if isPermissionMessage (exn_message error) then
        JS.Return (AccessDenied "access_denied" remediation)
      else JS.Throw error
  end.

(** Round half up of [count / totalOrders * 100] at two decimals, in exact
    arithmetic, as a number of hundredths. *)
Definition halfUpHundredths (count totalOrders : Z) : Z :=
  (2 * (count * 10000) + totalOrders) / (2 * totalOrders).

(** The percentage as the specification words it: round half up at two
    decimals when there are orders, 0 when there are none. *)
Definition roundsHalfUp (count totalOrders : Z) (p : spec_float) : Prop :=
  (0 < totalOrders ->
   p = Number.hundredths (halfUpHundredths count totalOrders)) /\
  (totalOrders = 0 -> p = Number.of_Z 0).

(** The pairs of at most 250 orders at which the exact value is a tie at
    the third decimal and the double-precision product falls just below
    it. *)
Definition belowTie (count totalOrders : Z) : bool :=
  (totalOrders =? 160) &&
  ((count =? 23) || (count =? 41) || (count =? 51) ||
   (count =? 87) || (count =? 97)).

Definition nearTieHundredths (count totalOrders : Z) : Z :=
  if belowTie count totalOrders then halfUpHundredths count totalOrders - 1
  else halfUpHundredths count totalOrders.

(** Round half up at two decimals, one hundredth less at the pairs of
    [belowTie]. *)
Definition roundsNearTie (count totalOrders : Z) (p : spec_float) : Prop :=
  (0 < totalOrders ->
   p = Number.hundredths (nearTieHundredths count totalOrders)) /\
  (totalOrders = 0 -> p = Number.of_Z 0).

(** The table of every count of every total up to [n] orders. *)
Definition hundredthsAgree (totalOrders count : nat) : bool :=
  Number.same
    (roundedHundredths (Z.of_nat count) (Z.of_nat totalOrders))
    (Number.of_Z (nearTieHundredths (Z.of_nat count) (Z.of_nat totalOrders))).

Definition hundredthsTable (n : nat) : bool :=
  forallb (fun totalOrders =>
             forallb (hundredthsAgree totalOrders) (seq 0 (S totalOrders)))
          (seq 1 n).

(** Orders of each class, and the order lists of the examples. *)
Definition deliveredOrder : Order :=
  orderOf (Some [withDisplayStatus (Some "DELIVERED")]).

Definition fulfilledOrder : Order :=
  orderOf (Some [withStatus (Some "FULFILLED")]).

Definition inTransitOrder : Order :=
  orderOf (Some [withDisplayStatus (Some "IN_TRANSIT")]).

Definition unfulfilledOrder : Order := orderOf (Some []).

Definition sampleOrders : list Order :=
  (repeat deliveredOrder 3 ++ repeat fulfilledOrder 2 ++ [inTransitOrder] ++
   repeat unfulfilledOrder 4)%list.

Definition tieOrders : list Order :=
  (repeat deliveredOrder 23 ++ repeat unfulfilledOrder 137)%list.

(** What the loop of lines 103-108 maintains: the four buckets exist,
    none is negative, and they add up to the number of orders seen. *)
Definition countsInvariant (statusCounts : gmap string Z) (seen : Z) : Prop :=
  exists d n f i : Z,
    statusCounts !! "DELIVERED" = Some d /\
    statusCounts !! "NOT_DELIVERED" = Some n /\
    statusCounts !! "FULFILLED" = Some f /\
    statusCounts !! "IN_TRANSIT" = Some i /\
    0 <= d /\ 0 <= n /\ 0 <= f /\ 0 <= i /\
    d + n + f + i = seen.

(** The four keys of [statusCounts]. *)
Definition statusKeys : list string :=
  ["DELIVERED"; "NOT_DELIVERED"; "FULFILLED"; "IN_TRANSIT"].

(** [text] contains [needle] as a substring. *)
Definition contains (text needle : string) : Prop :=
  exists pre post, text = String.append pre (String.append needle post).

(** The three substrings the loader looks for. *)
Definition permissionMarkers : list string :=
  ["Access denied"; "not approved"; "Order object"].

(** A response without errors that lists the given orders. *)
Definition responseOf (orderList : list Order) : ResponseJson :=
  {| errors := None;
     data := Some {| orders := Some {| edges :=
               Some (map (fun o => {| node := o |}) orderList) |} |} |}.

(** [recognized], as a test on a fulfillment. *)
Definition hasRecognizedStatus (f : Fulfillment) : bool :=
  bool_decide (effectiveStatus f = Some "DELIVERED") ||
  bool_decide (effectiveStatus f = Some "FULFILLED") ||
  bool_decide (effectiveStatus f = Some "IN_TRANSIT").

(** The number of orders of a list that are classified [label]. *)
Definition labelCount (label : string) (orderList : list Order) : Z :=
  Z.of_nat
    (length (List.filter
               (fun o => String.eqb (getOrderFulfillmentStatus o) label)
               orderList)).


End Orders.

(** ** The QR-code index route *)

Module QRCodes.

(** [const truncate = (text, length = 50) => ...]; an absent [text] or
    [length] is [None]. *)
Definition truncate (text : option string) (length : option Z) : string :=
  let length := default 50 length in
  if negb (JS.truthy text) then ""
  else
    let text := default "" text in
    if Z.of_nat (String.length text) >? length
    then JS.slice text 0 length ++ "..."
    else text.

End QRCodes.

(** ** The profile route *)

Module Profile.

(** A value of a form field: a string or an uploaded file. *)
Inductive FormDataEntryValue :=
| FormString (s : string)
| FormFile (filename : string).

(** [value.toString()] *)
Definition toString (value : FormDataEntryValue) : string :=
  match value with
  | FormString s => s
  | FormFile _ => "[object File]"
  end.

(** The entries of a form, in order; [get] gives the first value of a
    field, [null] when there is none. *)
Fixpoint get (formData : list (string * FormDataEntryValue)) (field : string)
  : option FormDataEntryValue :=
  match formData with
  | [] => None
  | (key, value) :: rest =>
      if String.eqb key field then Some value else get rest field
  end.

(** [value?.toString().trim() || ""] *)
Definition sanitizeText (value : option FormDataEntryValue) : string :=
  let trimmed := option_map (fun v => JS.trim (toString v)) value in
  default "" (JS.or_else trimmed (Some "")).

Record ProfileInput := {
  name : string;
  age : spec_float
}.

Record FormValues := {
  values_name : string;
  values_age : string
}.

(** The 400 response with its JSON body, or the redirect. *)
Inductive ActionResult :=
| BadRequest (errors : gmap string string) (values : FormValues)
| Redirect (location : string).

(** Lines 463-469: the [errors] object. *)
Definition validate (name ageValue : string) (age : spec_float)
  : gmap string string :=
  let errors : gmap string string := ∅ in
  let errors :=
    if negb (JS.truthy (Some name))
    then <["name" := "Name is required"]> errors else errors in
  let errors :=
    if negb (JS.truthy (Some ageValue))
    then <["age" := "Age is required"]> errors
    else if Number.isNaN age || Number.lt age (Number.of_Z 0)
    then <["age" := "Age must be a valid non-negative number"]> errors
    else errors in
  errors.

(** The action after [authenticate.admin], on the form entries and the
    rows of the profile table; [prisma.profile.create] adds a row. *)
Definition action (formData : list (string * FormDataEntryValue))
                  (profiles : list ProfileInput)
  : ActionResult * list ProfileInput :=
  let name := sanitizeText (get formData "name") in
  let ageValue := sanitizeText (get formData "age") in
  let age := Number.parseInt ageValue in
  let errors := validate name ageValue age in
  if negb (Z.of_nat (size errors) =? 0) then
    (BadRequest errors {| values_name := name; values_age := ageValue |},
     profiles)
  else
    (Redirect "/app/profile",
     (profiles ++ [{| name := name; age := age |}])%list).

(** A form with the two text fields filled in. *)
Definition formOf (nameField ageField : string)
  : list (string * FormDataEntryValue) :=
  [("name", FormString nameField); ("age", FormString ageField)].

(** The message of the age field, read off the text: none when the text
    has a leading integer that is not negative. *)
Definition ageError (ageValue : string) : option string :=
  if decide (ageValue = "") then Some "Age is required"
  else match JS.parseIntMath ageValue with
       | None => Some "Age must be a valid non-negative number"
       | Some (negative, mathInt) =>
           if negative && (0 <? mathInt)
           then Some "Age must be a valid non-negative number"
           else None
       end.

(** An age the validation lets through: the Number of a non-negative
    integer (rounded to a double, +Infinity when it is too large), or -0. *)
Definition acceptedAge (x : spec_float) : Prop :=
  exists (negative : bool) (mathInt : Z),
    0 <= mathInt /\ (negative = true -> mathInt = 0) /\
    x = Number.toNumber negative mathInt.

(** A row as the action writes it: a trimmed, non-empty name and an
    accepted age. *)
Definition validRow (p : ProfileInput) : Prop :=
  name p <> "" /\ JS.trim (name p) = name p /\ acceptedAge (age p).

(** A text of [n] times the digit 9. *)
Fixpoint nines (n : nat) : string :=
  match n with
  | O => EmptyString
  | S k => String "9" (nines k)
  end.

End Profile.

(** * Properties *)

(** ** The fulfillment classifier *)

Module Classifier.
Import Orders.
Local Open Scope list_scope.

Section EffectiveStatus.

Variable f : Fulfillment.

(** A display status that is present and not empty is the effective one. *)
Lemma effectiveStatus_display s :
  displayStatus f = Some s -> s <> "" -> effectiveStatus f = Some s.
Proof.
  intros Hd Hs. unfold effectiveStatus, JS.or_else, JS.truthy. rewrite Hd.
  destruct (String.eqb_spec s ""); [contradiction | reflexivity].
Qed.

(** An absent display status falls back to [status]. *)
Lemma effectiveStatus_fallback :
  displayStatus f = None -> effectiveStatus f = status f.
Proof.
  intros Hd. unfold effectiveStatus, JS.or_else, JS.truthy. now rewrite Hd.
Qed.

End EffectiveStatus.

Lemma primaryScan_cons f rest :
  primaryScan (f :: rest) =
  if decide (effectiveStatus f = Some "DELIVERED") then Some "DELIVERED"
  else if decide (effectiveStatus f = Some "FULFILLED") then Some "FULFILLED"
  else if decide (effectiveStatus f = Some "IN_TRANSIT") then Some "IN_TRANSIT"
  else primaryScan rest.
Proof. reflexivity. Qed.

(** A fulfillment with a recognized status ends the loop with that status. *)
Lemma primaryScan_hit f rest l :
  effectiveStatus f = Some l -> recognized (Some l) ->
  primaryScan (f :: rest) = Some l.
Proof.
  intros He Hr. rewrite primaryScan_cons, He.
  destruct Hr as [Hr | [Hr | Hr]]; injection Hr as ->;
    repeat case_decide; congruence.
Qed.

(** A fulfillment with any other status is skipped. *)
Lemma primaryScan_skip f rest :
  ~ recognized (effectiveStatus f) -> primaryScan (f :: rest) = primaryScan rest.
Proof.
  intros Hn. rewrite primaryScan_cons. unfold recognized in Hn.
  repeat case_decide; tauto.
Qed.

Lemma primaryScan_first pre f post l :
  Forall (fun g => ~ recognized (effectiveStatus g)) pre ->
  effectiveStatus f = Some l -> recognized (Some l) ->
  primaryScan (pre ++ f :: post) = Some l.
Proof.
  intros Hpre He Hr. induction Hpre as [| g pre Hg _ IH]; simpl app.
  - now apply primaryScan_hit.
  - rewrite primaryScan_skip; assumption.
Qed.

Lemma primaryScan_label fs l :
  primaryScan fs = Some l ->
  l = "DELIVERED" \/ l = "FULFILLED" \/ l = "IN_TRANSIT".
Proof.
  induction fs as [| f fs IH]; [discriminate |].
  rewrite primaryScan_cons. intros Hscan.
  repeat case_decide; try (injection Hscan as <-; tauto). auto.
Qed.

Lemma primaryScan_None fs :
  primaryScan fs = None <->
  Forall (fun g => ~ recognized (effectiveStatus g)) fs.
Proof.
  induction fs as [| f fs IH].
  - split; [constructor | reflexivity].
  - rewrite primaryScan_cons. split.
    + intros Hscan. repeat case_decide; try discriminate. constructor.
      * unfold recognized. tauto.
      * now apply IH.
    + intros H. apply Forall_cons_1 in H as [Hf Hfs].
      rewrite <- primaryScan_cons, primaryScan_skip; [now apply IH | exact Hf].
Qed.

(** When the loop ends without a [return], the re-scan finds nothing. *)
Lemma hasFulfilled_after_loop fs :
  primaryScan fs = None -> hasFulfilled fs = false.
Proof.
  rewrite primaryScan_None. unfold hasFulfilled.
  induction 1 as [| f fs Hf _ IH]; [reflexivity |].
  simpl. rewrite IH, orb_false_r. apply bool_decide_eq_false.
  unfold recognized in Hf. tauto.
Qed.

Lemma classify_empty o :
  fulfillments o = None \/ fulfillments o = Some [] ->
  classify o = (NoFulfillments, "NOT_DELIVERED").
Proof. unfold classify. now intros [-> | ->]. Qed.

Lemma classify_hit o fs l :
  fulfillments o = Some fs -> primaryScan fs = Some l ->
  classify o = (PrimaryLoop, l).
Proof.
  intros Hfs Hl. unfold classify. rewrite Hfs. simpl default.
  destruct fs as [| f fs]; [discriminate |].
  change (Z.of_nat (length (f :: fs)) =? 0) with false.
  now rewrite Hl.
Qed.

Lemma classify_miss o fs :
  fulfillments o = Some fs -> primaryScan fs = None ->
  snd (classify o) = "NOT_DELIVERED" /\ fst (classify o) <> SecondaryScan.
Proof.
  intros Hfs Hl. unfold classify. rewrite Hfs. simpl default.
  rewrite Hl, (hasFulfilled_after_loop _ Hl).
  destruct (Z.of_nat (length fs) =? 0); now split.
Qed.

Lemma getOrderFulfillmentStatus_cases o :
  getOrderFulfillmentStatus o = "DELIVERED" \/
  getOrderFulfillmentStatus o = "NOT_DELIVERED" \/
  getOrderFulfillmentStatus o = "FULFILLED" \/
  getOrderFulfillmentStatus o = "IN_TRANSIT".
Proof.
  unfold getOrderFulfillmentStatus.
  destruct (fulfillments o) as [fs |] eqn:Hfs.
  - destruct (primaryScan fs) as [l |] eqn:Hl.
    + rewrite (classify_hit o fs l Hfs Hl). simpl.
      destruct (primaryScan_label fs l Hl) as [-> | [-> | ->]]; tauto.
    + rewrite (proj1 (classify_miss o fs Hfs Hl)). tauto.
  - rewrite classify_empty by now left. simpl; tauto.
Qed.

(** C1. For every order with a fulfillment whose effective status is
    DELIVERED, FULFILLED or IN_TRANSIT, [getOrderFulfillmentStatus] returns
    the effective status of the first such fulfillment in list order.  In
    particular an order whose first fulfillment has displayStatus
    "DELIVERED" is DELIVERED whatever follows, and the statuses
    ["IN_TRANSIT"; "FULFILLED"] give IN_TRANSIT. *)
Theorem C1_first_recognized_fulfillment_decides :
  (forall (o : Order) (pre post : list Fulfillment) (f : Fulfillment)
          (l : string),
      fulfillments o = Some (pre ++ f :: post) ->
      Forall (fun g => ~ recognized (effectiveStatus g)) pre ->
      effectiveStatus f = Some l -> recognized (Some l) ->
      getOrderFulfillmentStatus o = l) /\
  (forall (o : Order) (f : Fulfillment) (rest : list Fulfillment),
      fulfillments o = Some (f :: rest) ->
      displayStatus f = Some "DELIVERED" ->
      getOrderFulfillmentStatus o = "DELIVERED") /\
  (forall (o : Order) (f1 f2 : Fulfillment),
      fulfillments o = Some [f1; f2] ->
      effectiveStatus f1 = Some "IN_TRANSIT" ->
      effectiveStatus f2 = Some "FULFILLED" ->
      getOrderFulfillmentStatus o = "IN_TRANSIT").
Proof.
  assert (Hgen : forall o pre post f l,
             fulfillments o = Some (pre ++ f :: post) ->
             Forall (fun g => ~ recognized (effectiveStatus g)) pre ->
             effectiveStatus f = Some l -> recognized (Some l) ->
             getOrderFulfillmentStatus o = l).
  { intros o pre post f l Hfs Hpre He Hr. unfold getOrderFulfillmentStatus.
    now rewrite (classify_hit o _ l Hfs (primaryScan_first _ _ _ _ Hpre He Hr)). }
  split; [exact Hgen | split].
  - intros o f rest Hfs Hd.
    apply (Hgen o [] rest f); [exact Hfs | constructor | | unfold recognized; tauto].
    now apply effectiveStatus_display.
  - intros o f1 f2 Hfs H1 _.
    apply (Hgen o [] [f2] f1); [exact Hfs | constructor | exact H1 |].
    unfold recognized; tauto.
Qed.

Lemma C1_witness :
  getOrderFulfillmentStatus
    (orderOf (Some [withStatus (Some "PENDING");
                    withDisplayStatus (Some "IN_TRANSIT");
                    withStatus (Some "DELIVERED")])) = "IN_TRANSIT" /\
  getOrderFulfillmentStatus
    (orderOf (Some [withDisplayStatus (Some "DELIVERED");
                    withStatus (Some "IN_TRANSIT")])) = "DELIVERED" /\
  getOrderFulfillmentStatus
    (orderOf (Some [withStatus (Some "IN_TRANSIT");
                    withStatus (Some "FULFILLED")])) = "IN_TRANSIT".
Proof.
  split; [| split].
  - apply (proj1 C1_first_recognized_fulfillment_decides
             _ [withStatus (Some "PENDING")] [withStatus (Some "DELIVERED")]
             (withDisplayStatus (Some "IN_TRANSIT"))).
    + reflexivity.
    + constructor; [| constructor]. vm_compute.
      intros [H | [H | H]]; discriminate H.
    + reflexivity.
    + right; right; reflexivity.
  - apply (proj1 (proj2 C1_first_recognized_fulfillment_decides)
             _ (withDisplayStatus (Some "DELIVERED"))
             [withStatus (Some "IN_TRANSIT")]); reflexivity.
  - apply (proj2 (proj2 C1_first_recognized_fulfillment_decides)
             _ (withStatus (Some "IN_TRANSIT")) (withStatus (Some "FULFILLED")));
      reflexivity.
Defined.

(** C2. [getOrderFulfillmentStatus] is total and its result is one of
    DELIVERED, NOT_DELIVERED, FULFILLED, IN_TRANSIT; an order without
    fulfillments, and an order whose fulfillments all have an unrecognized
    effective status, are NOT_DELIVERED. *)
Theorem C2_label_is_one_of_four :
  (forall o : Order,
      In (getOrderFulfillmentStatus o)
         ["DELIVERED"; "NOT_DELIVERED"; "FULFILLED"; "IN_TRANSIT"]) /\
  (forall o : Order,
      fulfillments o = None \/ fulfillments o = Some [] ->
      getOrderFulfillmentStatus o = "NOT_DELIVERED") /\
  (forall (o : Order) (fs : list Fulfillment),
      fulfillments o = Some fs ->
      Forall (fun g => ~ recognized (effectiveStatus g)) fs ->
      getOrderFulfillmentStatus o = "NOT_DELIVERED").
Proof.
  split; [| split].
  - intros o.
    destruct (getOrderFulfillmentStatus_cases o) as [-> | [-> | [-> | ->]]];
      simpl; tauto.
  - intros o Ho. unfold getOrderFulfillmentStatus.
    now rewrite classify_empty.
  - intros o fs Hfs Hall. apply (classify_miss o fs Hfs).
    now apply primaryScan_None.
Qed.

Lemma C2_witness :
  getOrderFulfillmentStatus (orderOf None) = "NOT_DELIVERED" /\
  getOrderFulfillmentStatus
    (orderOf (Some [withStatus (Some "PENDING");
                    withDisplayStatus (Some "LABEL_PRINTED")]))
  = "NOT_DELIVERED".
Proof.
  split.
  - apply (proj1 (proj2 C2_label_is_one_of_four)). left; reflexivity.
  - apply (proj2 (proj2 C2_label_is_one_of_four) _
             [withStatus (Some "PENDING");
              withDisplayStatus (Some "LABEL_PRINTED")]); [reflexivity |].
    repeat constructor; vm_compute; intros [H | [H | H]]; discriminate H.
Defined.

(** C3, as the specification has it, fails: the order with the statuses
    [null; "FULFILLED"] is not classified by the secondary scan. *)
Lemma C3_secondary_scan_not_taken :
  ~ (getOrderFulfillmentStatus
       (orderOf (Some [withStatus None; withStatus (Some "FULFILLED")]))
     = "FULFILLED" /\
     returnSite
       (orderOf (Some [withStatus None; withStatus (Some "FULFILLED")]))
     = SecondaryScan).
Proof. vm_compute. intros [_ H]. discriminate H. Qed.

(** C3, amended. An order in which a fulfillment has effective status
    FULFILLED and every earlier one has an effective status other than
    DELIVERED, FULFILLED and IN_TRANSIT is classified FULFILLED, by the
    primary loop; so is the order with statuses [null or unrecognized;
    "FULFILLED"].  When the primary loop matches nothing the re-scan finds
    no FULFILLED and the result is NOT_DELIVERED. *)
Theorem C3_fulfilled_by_primary_loop :
  (forall (o : Order) (pre post : list Fulfillment) (f : Fulfillment),
      fulfillments o = Some (pre ++ f :: post) ->
      Forall (fun g => ~ recognized (effectiveStatus g)) pre ->
      effectiveStatus f = Some "FULFILLED" ->
      getOrderFulfillmentStatus o = "FULFILLED" /\
      returnSite o = PrimaryLoop) /\
  (forall (o : Order) (fs : list Fulfillment),
      fulfillments o = Some fs -> primaryScan fs = None ->
      hasFulfilled fs = false /\
      getOrderFulfillmentStatus o = "NOT_DELIVERED").
Proof.
  split.
  - intros o pre post f Hfs Hpre He.
    assert (Hscan : primaryScan (pre ++ f :: post) = Some "FULFILLED").
    { apply primaryScan_first; [exact Hpre | exact He |].
      unfold recognized; tauto. }
    unfold getOrderFulfillmentStatus, returnSite.
    now rewrite (classify_hit o _ _ Hfs Hscan).
  - intros o fs Hfs Hscan. split.
    + now apply hasFulfilled_after_loop.
    + apply (classify_miss o fs Hfs Hscan).
Qed.

Lemma C3_witness :
  (getOrderFulfillmentStatus
     (orderOf (Some [withStatus None; withStatus (Some "FULFILLED")]))
   = "FULFILLED" /\
   returnSite
     (orderOf (Some [withStatus None; withStatus (Some "FULFILLED")]))
   = PrimaryLoop) /\
  (hasFulfilled [withStatus (Some "PENDING")] = false /\
   getOrderFulfillmentStatus (orderOf (Some [withStatus (Some "PENDING")]))
   = "NOT_DELIVERED").
Proof.
  split.
  - apply (proj1 C3_fulfilled_by_primary_loop _
             [withStatus None] [] (withStatus (Some "FULFILLED")));
      [reflexivity | | reflexivity].
    repeat constructor; vm_compute; intros [H | [H | H]]; discriminate H.
  - apply (proj2 C3_fulfilled_by_primary_loop
             (orderOf (Some [withStatus (Some "PENDING")])));
      reflexivity.
Defined.

(** C9. The secondary FULFILLED scan never changes the result: when the
    primary loop ends without returning, no fulfillment has effective
    status FULFILLED, the [hasFulfilled] branch is never taken, and the
    function equals its variant without the secondary scan; an order with
    statuses [unrecognized; "FULFILLED"] is resolved by the primary loop. *)
Theorem C9_secondary_scan_is_dead :
  (forall fs : list Fulfillment,
      primaryScan fs = None -> hasFulfilled fs = false) /\
  (forall o : Order, returnSite o <> SecondaryScan) /\
  (forall o : Order,
      getOrderFulfillmentStatus o = getOrderFulfillmentStatus_primaryOnly o) /\
  (forall (o : Order) (f1 f2 : Fulfillment),
      fulfillments o = Some [f1; f2] ->
      ~ recognized (effectiveStatus f1) ->
      effectiveStatus f2 = Some "FULFILLED" ->
      returnSite o = PrimaryLoop).
Proof.
  split; [exact hasFulfilled_after_loop | split; [| split]].
  - intros o. unfold returnSite.
    destruct (fulfillments o) as [fs |] eqn:Hfs.
    + destruct (primaryScan fs) as [l |] eqn:Hl.
      * now rewrite (classify_hit o fs l Hfs Hl).
      * apply (classify_miss o fs Hfs Hl).
    + now rewrite classify_empty by now left.
  - intros o.
    unfold getOrderFulfillmentStatus, getOrderFulfillmentStatus_primaryOnly,
      classify.
    destruct (Z.of_nat (length (default [] (fulfillments o))) =? 0);
      [reflexivity |].
    destruct (primaryScan (default [] (fulfillments o))) as [l |] eqn:Hl;
      [reflexivity |].
    now rewrite (hasFulfilled_after_loop _ Hl).
  - intros o f1 f2 Hfs H1 H2. unfold returnSite.
    rewrite (classify_hit o [f1; f2] "FULFILLED" Hfs); [reflexivity |].
    apply (primaryScan_first [f1] f2 []); [now repeat constructor | exact H2 |].
    unfold recognized; tauto.
Qed.

Lemma C9_witness :
  hasFulfilled [withStatus (Some "PENDING"); withStatus None] = false /\
  returnSite
    (orderOf (Some [withStatus (Some "PENDING");
                    withStatus (Some "FULFILLED")])) = PrimaryLoop.
Proof.
  split.
  - apply (proj1 C9_secondary_scan_is_dead). reflexivity.
  - apply (proj2 (proj2 (proj2 C9_secondary_scan_is_dead)) _
             (withStatus (Some "PENDING")) (withStatus (Some "FULFILLED")));
      [reflexivity | | reflexivity].
    vm_compute; intros [H | [H | H]]; discriminate H.
Defined.

End Classifier.

(** ** The orders loader *)

Module Loader.
Import Orders.
Local Open Scope list_scope.

(** *** Substring tests *)

Lemma startsWith_spec hay needle :
  JS.startsWith hay needle = true <->
  exists post, hay = String.append needle post.
Proof.
  revert hay. induction needle as [| a needle IH]; intros hay.
  - destruct hay; (split; [intros _; eexists; reflexivity |]); reflexivity.
  - destruct hay as [| b hay]; simpl.
    + split; [discriminate | intros [post H]; discriminate H].
    + rewrite andb_true_iff, IH. split.
      * intros [Hab [post ->]]. apply Ascii.eqb_eq in Hab as ->.
        now exists post.
      * intros [post H]. injection H as -> ->. split.
        -- apply Ascii.eqb_refl.
        -- now exists post.
Qed.

Lemma includes_spec hay needle :
  JS.includes hay needle = true <-> contains hay needle.
Proof.
  unfold contains. induction hay as [| b hay IH].
  - change (JS.includes "" needle) with (JS.startsWith "" needle || false).
    rewrite orb_false_r, startsWith_spec. split.
    + intros [post H]. now exists "", post.
    + intros [pre [post H]]. destruct pre; [now exists post |].
      discriminate H.
  - change (JS.includes (String b hay) needle)
      with (JS.startsWith (String b hay) needle || JS.includes hay needle).
    rewrite orb_true_iff, startsWith_spec, IH. split.
    + intros [[post H] | [pre [post H]]].
      * now exists "", post.
      * exists (String b pre), post. simpl. now rewrite H.
    + intros [pre [post H]]. destruct pre as [| c pre].
      * left. now exists post.
      * right. injection H as -> H. now exists pre, post.
Qed.

Lemma isPermissionMessage_true m :
  isPermissionMessage m = true <->
  exists text needle,
    m = Some text /\ In needle permissionMarkers /\ contains text needle.
Proof.
  destruct m as [text |]; simpl isPermissionMessage.
  - rewrite !orb_true_iff, !includes_spec. split.
    + intros [[H | H] | H]; eexists text, _;
        (split; [reflexivity | split; [| exact H]]); simpl; tauto.
    + intros [text' [needle [Ht [Hin Hc]]]]. injection Ht as <-.
      simpl in Hin. destruct Hin as [<- | [<- | [<- | []]]]; tauto.
  - split; [discriminate |]. intros [text [needle [H _]]]. discriminate H.
Qed.

Lemma isPermissionMessage_false m :
  (forall text needle,
      m = Some text -> In needle permissionMarkers -> ~ contains text needle) ->
  isPermissionMessage m = false.
Proof.
  intros H. apply not_true_is_false. rewrite isPermissionMessage_true.
  intros [text [needle [Hm [Hin Hc]]]]. exact (H text needle Hm Hin Hc).
Qed.


(** *** Counting *)

Lemma initialCounts_invariant : countsInvariant initialCounts 0.
Proof. exists 0, 0, 0, 0. repeat split; reflexivity || lia. Qed.

Lemma countOrder_invariant statusCounts seen o :
  countsInvariant statusCounts seen ->
  countsInvariant (countOrder statusCounts o) (seen + 1).
Proof.
  intros (d & n & f & i & Hd & Hn & Hf & Hi & Hd0 & Hn0 & Hf0 & Hi0 & Hsum).
  unfold countOrder.
  destruct (Classifier.getOrderFulfillmentStatus_cases o)
    as [-> | [-> | [-> | ->]]].
  - rewrite Hd. exists (d + 1), n, f, i.
    rewrite lookup_insert_eq, !lookup_insert_ne by discriminate.
    repeat split; auto; lia.
  - rewrite Hn. exists d, (n + 1), f, i.
    rewrite lookup_insert_eq, !lookup_insert_ne by discriminate.
    repeat split; auto; lia.
  - rewrite Hf. exists d, n, (f + 1), i.
    rewrite lookup_insert_eq, !lookup_insert_ne by discriminate.
    repeat split; auto; lia.
  - rewrite Hi. exists d, n, f, (i + 1).
    rewrite lookup_insert_eq, !lookup_insert_ne by discriminate.
    repeat split; auto; lia.
Qed.

Lemma fold_countOrder_invariant orderList :
  forall statusCounts seen,
    countsInvariant statusCounts seen ->
    countsInvariant (fold_left countOrder orderList statusCounts)
                    (seen + Z.of_nat (length orderList)).
Proof.
  induction orderList as [| o orderList IH]; intros statusCounts seen Hinv.
  - simpl. now rewrite Z.add_0_r.
  - cbn [fold_left length]. rewrite Nat2Z.inj_succ.
    replace (seen + Z.succ (Z.of_nat (length orderList)))
      with (seen + 1 + Z.of_nat (length orderList)) by lia.
    apply IH. now apply countOrder_invariant.
Qed.

Lemma countStatuses_invariant orderList :
  countsInvariant (countStatuses orderList) (Z.of_nat (length orderList)).
Proof.
  apply (fold_countOrder_invariant orderList initialCounts 0).
  exact initialCounts_invariant.
Qed.

(** What an [Overview] returned for a resolved fetch is made of. *)
Lemma loader_overview json totalOrders statusCounts percentages error :
  loader (Resolved json)
  = JS.Return (Overview totalOrders statusCounts percentages error) ->
  overview (ordersOf json)
  = Overview totalOrders statusCounts percentages error.
Proof.
  unfold loader. destruct (accessDenied json); intros H.
  - discriminate H.
  - exact (f_equal (fun r => match r with
                             | JS.Return a => a
                             | JS.Throw _ => overview []
                             end) H).
Qed.

Lemma overview_inv orderList totalOrders statusCounts percentages error :
  overview orderList = Overview totalOrders statusCounts percentages error ->
  totalOrders = Z.of_nat (length orderList) /\
  statusCounts = countStatuses orderList /\
  delivered percentages = percentOf (deliveredCount statusCounts) totalOrders /\
  notDelivered percentages
  = percentOf (notDeliveredCount statusCounts) totalOrders /\
  (forall key, In key statusKeys ->
     byStatus percentages !! key
     = Some (percentOf (bucket statusCounts key) totalOrders)) /\
  error = None.
Proof.
  unfold overview. intros H. injection H as <- <- <- <-.
  repeat split; try reflexivity.
  intros key [<- | [<- | [<- | [<- | []]]]]; cbn [byStatus percentagesOf];
    now rewrite ?lookup_insert_eq, ?lookup_insert_ne by discriminate.
Qed.

(** C4. The [statusCounts] of the loader add up to [totalOrders];
    [deliveredCount] is the DELIVERED bucket and [notDeliveredCount] the
    sum of the three others, so the two add up to [totalOrders] too. *)
Theorem C4_status_counts_partition_the_orders
  (json : ResponseJson) (totalOrders : Z) (statusCounts : gmap string Z)
  (percentages : Percentages) (error : option string) :
  loader (Resolved json)
  = JS.Return (Overview totalOrders statusCounts percentages error) ->
  totalOrders = Z.of_nat (length (ordersOf json)) /\
  exists d n f i : Z,
    statusCounts !! "DELIVERED" = Some d /\
    statusCounts !! "NOT_DELIVERED" = Some n /\
    statusCounts !! "FULFILLED" = Some f /\
    statusCounts !! "IN_TRANSIT" = Some i /\
    d + n + f + i = totalOrders /\
    deliveredCount statusCounts = d /\
    notDeliveredCount statusCounts = n + f + i /\
    deliveredCount statusCounts + notDeliveredCount statusCounts = totalOrders.
Proof.
  intros H. apply loader_overview, overview_inv in H.
  destruct H as (-> & -> & _). split; [reflexivity |].
  destruct (countStatuses_invariant (ordersOf json))
    as (d & n & f & i & Hd & Hn & Hf & Hi & _ & _ & _ & _ & Hsum).
  exists d, n, f, i. unfold deliveredCount, notDeliveredCount, bucket.
  rewrite Hd, Hn, Hf, Hi. cbv [default from_option Datatypes.id].
  repeat split; auto; lia.
Qed.

Lemma C4_witness :
  10 = Z.of_nat (length (ordersOf (responseOf sampleOrders))) /\
  exists d n f i : Z,
    countStatuses sampleOrders !! "DELIVERED" = Some d /\
    countStatuses sampleOrders !! "NOT_DELIVERED" = Some n /\
    countStatuses sampleOrders !! "FULFILLED" = Some f /\
    countStatuses sampleOrders !! "IN_TRANSIT" = Some i /\
    d + n + f + i = 10 /\
    deliveredCount (countStatuses sampleOrders) = d /\
    notDeliveredCount (countStatuses sampleOrders) = n + f + i /\
    deliveredCount (countStatuses sampleOrders) +
    notDeliveredCount (countStatuses sampleOrders) = 10.
Proof.
  apply (C4_status_counts_partition_the_orders
           (responseOf sampleOrders) 10 (countStatuses sampleOrders)
           (percentagesOf (countStatuses sampleOrders) 10) None).
  reflexivity.
Defined.

(** *** Percentages *)

(** Splits a conjunction and closes the conjuncts that hold by evaluation. *)
Ltac split_and_compute :=
  repeat match goal with |- _ /\ _ => split end;
  try (vm_compute; reflexivity).

(** The shifts of [Number.round] compute floor (x + 1/2). *)
Lemma round_shift (v k : Z) :
  0 <= k ->
  Z.shiftr (2 * v + Z.shiftl 1 k) (k + 1) = (2 * v + 2 ^ k) / 2 ^ (k + 1).
Proof.
  intros Hk. rewrite Z.shiftr_div_pow2 by lia.
  now rewrite Z.shiftl_1_l.
Qed.

Example round_half_goes_up :
  Number.round (Number.div (Number.of_Z 625) (Number.of_Z 2))
  = Number.of_Z 313 /\
  Number.round (Number.div (Number.of_Z (-5)) (Number.of_Z 2))
  = Number.of_Z (-2) /\
  Number.round (Number.div (Number.of_Z (-1)) (Number.of_Z 4))
  = S754_zero true.
Proof. repeat split; vm_compute; reflexivity. Qed.

Lemma same_eq x y : Number.same x y = true -> x = y.
Proof.
  destruct x as [a | a | | a m e], y as [b | b | | b n f]; simpl;
    try discriminate; try reflexivity.
  - intros H. now apply Bool.eqb_prop in H as ->.
  - intros H. now apply Bool.eqb_prop in H as ->.
  - rewrite !andb_true_iff. intros [[Hs Hm] He].
    apply Bool.eqb_prop in Hs as ->. apply Pos.eqb_eq in Hm as ->.
    now apply Z.eqb_eq in He as ->.
Qed.

(** What a table that evaluates to [true] says. *)
Lemma hundredthsTable_spec (n t c : nat) :
  hundredthsTable n = true ->
  (1 <= t <= n)%nat -> (c <= t)%nat -> hundredthsAgree t c = true.
Proof.
  unfold hundredthsTable. intros Htable Ht Hc.
  rewrite forallb_forall in Htable.
  assert (Hrow : forallb (hundredthsAgree t) (seq 0 (S t)) = true).
  { apply Htable, in_seq. lia. }
  rewrite forallb_forall in Hrow. apply Hrow, in_seq. lia.
Qed.

(** Every count of every total up to 250 orders, by computation. *)
Lemma hundredthsTable_250 : hundredthsTable 250 = true.
Proof. vm_compute. reflexivity. Qed.

Lemma roundedHundredths_upto_250 count totalOrders :
  0 < totalOrders <= 250 -> 0 <= count <= totalOrders ->
  roundedHundredths count totalOrders
  = Number.of_Z (nearTieHundredths count totalOrders).
Proof.
  intros Ht Hc.
  destruct (Z_of_nat_complete count) as [c ->]; [lia |].
  destruct (Z_of_nat_complete totalOrders) as [t ->]; [lia |].
  assert (Hrange : (1 <= t <= 250)%nat /\ (c <= t)%nat) by lia.
  apply same_eq.
  apply (hundredthsTable_spec 250 t c hundredthsTable_250); apply Hrange.
Qed.

Lemma percentOf_upto_250 count totalOrders :
  0 <= count <= totalOrders -> totalOrders <= 250 ->
  roundsNearTie count totalOrders (percentOf count totalOrders).
Proof.
  intros Hc Ht. unfold roundsNearTie, percentOf. split.
  - intros Hpos. rewrite (proj2 (Z.ltb_lt 0 totalOrders) Hpos).
    rewrite roundedHundredths_upto_250 by lia. reflexivity.
  - intros ->. reflexivity.
Qed.

(** C5, as the specification has it, fails: of 160 orders with 23
    delivered, 14.375 percent rounds half up to 14.38, and the loader
    returns 14.37. *)
Lemma C5_tie_rounds_down :
  loader (Resolved (responseOf tieOrders))
  = JS.Return (Overview 160 (countStatuses tieOrders)
                 (percentagesOf (countStatuses tieOrders) 160) None) /\
  deliveredCount (countStatuses tieOrders) = 23 /\
  halfUpHundredths 23 160 = 1438 /\
  delivered (percentagesOf (countStatuses tieOrders) 160)
  = Number.hundredths 1437 /\
  ~ roundsHalfUp 23 160
      (delivered (percentagesOf (countStatuses tieOrders) 160)).
Proof.
  assert (Hp : delivered (percentagesOf (countStatuses tieOrders) 160)
               = Number.hundredths 1437) by (vm_compute; reflexivity).
  do 4 (split; [vm_compute; reflexivity |]).
  intros [H _]. specialize (H ltac:(lia)). rewrite Hp in H.
  vm_compute in H. discriminate H.
Qed.

(** C5, amended. For a fetch of at most 250 orders, each of the six
    percentages of the loader is the round half up of count / totalOrders
    x 100 at two decimals when totalOrders > 0, except that of 160 orders
    the counts 23, 41, 51, 87 and 97 give one hundredth less; it is 0 when
    totalOrders = 0.  For the counts 3, 4, 2, 1 of 10 orders the delivered
    percentage is 30, the not-delivered one 70, and those by status add up
    to 100. *)
Theorem C5_percentages_round_to_hundredths :
  (forall (json : ResponseJson) (totalOrders : Z)
          (statusCounts : gmap string Z) (percentages : Percentages)
          (error : option string),
      loader (Resolved json)
      = JS.Return (Overview totalOrders statusCounts percentages error) ->
      totalOrders <= 250 ->
      roundsNearTie (deliveredCount statusCounts) totalOrders
                    (delivered percentages) /\
      roundsNearTie (notDeliveredCount statusCounts) totalOrders
                    (notDelivered percentages) /\
      (forall key, In key statusKeys ->
         exists p, byStatus percentages !! key = Some p /\
                   roundsNearTie (bucket statusCounts key) totalOrders p)) /\
  (exists (statusCounts : gmap string Z) (percentages : Percentages),
      loader (Resolved (responseOf sampleOrders))
      = JS.Return (Overview 10 statusCounts percentages None) /\
      statusCounts !! "DELIVERED" = Some 3 /\
      statusCounts !! "NOT_DELIVERED" = Some 4 /\
      statusCounts !! "FULFILLED" = Some 2 /\
      statusCounts !! "IN_TRANSIT" = Some 1 /\
      delivered percentages = Number.of_Z 30 /\
      notDelivered percentages = Number.of_Z 70 /\
      exists pd pn pf pi : spec_float,
        byStatus percentages !! "DELIVERED" = Some pd /\
        byStatus percentages !! "NOT_DELIVERED" = Some pn /\
        byStatus percentages !! "FULFILLED" = Some pf /\
        byStatus percentages !! "IN_TRANSIT" = Some pi /\
        Number.add (Number.add (Number.add pd pn) pf) pi = Number.of_Z 100).
Proof.
  split.
  - intros json totalOrders statusCounts percentages error H Hcap.
    apply loader_overview, overview_inv in H.
    destruct H as (Htotal & -> & -> & -> & Hby & _).
    destruct (countStatuses_invariant (ordersOf json))
      as (d & n & f & i & Hd & Hn & Hf & Hi & Hd0 & Hn0 & Hf0 & Hi0 & Hsum).
    rewrite <- Htotal in Hsum.
    assert (Hb : forall key, In key statusKeys ->
                   0 <= bucket (countStatuses (ordersOf json)) key
                   <= totalOrders).
    { intros key [<- | [<- | [<- | [<- | []]]]]; unfold bucket;
        rewrite ?Hd, ?Hn, ?Hf, ?Hi; cbv [default from_option Datatypes.id];
        lia. }
    split; [| split].
    + apply percentOf_upto_250; [| exact Hcap].
      apply (Hb "DELIVERED"). simpl; tauto.
    + apply percentOf_upto_250; [| exact Hcap].
      unfold notDeliveredCount, bucket. rewrite Hn, Hf, Hi.
      cbv [default from_option Datatypes.id]. lia.
    + intros key Hkey. eexists. split; [exact (Hby key Hkey) |].
      apply percentOf_upto_250; [exact (Hb key Hkey) | exact Hcap].
  - exists (countStatuses sampleOrders),
           (percentagesOf (countStatuses sampleOrders) 10).
    do 7 (split; [vm_compute; reflexivity |]).
    exists (Number.of_Z 30), (Number.of_Z 40), (Number.of_Z 20),
           (Number.of_Z 10).
    split_and_compute.
Qed.

Lemma C5_witness :
  roundsNearTie (deliveredCount (countStatuses tieOrders)) 160
    (delivered (percentagesOf (countStatuses tieOrders) 160)) /\
  roundsNearTie (notDeliveredCount (countStatuses tieOrders)) 160
    (notDelivered (percentagesOf (countStatuses tieOrders) 160)) /\
  (forall key, In key statusKeys ->
     exists p,
       byStatus (percentagesOf (countStatuses tieOrders) 160) !! key = Some p /\
       roundsNearTie (bucket (countStatuses tieOrders) key) 160 p).
Proof.
  apply (proj1 C5_percentages_round_to_hundredths
           (responseOf tieOrders) 160 (countStatuses tieOrders)
           (percentagesOf (countStatuses tieOrders) 160) None).
  - vm_compute. reflexivity.
  - lia.
Defined.

(** *** Permission errors *)

(** C7. If the structured error list of the response has a message that
    contains "Access denied", "not approved" or "Order object", the loader
    returns error "access_denied" with the remediation message and does
    not throw; an error thrown by the fetch whose message contains none of
    the three is thrown again, unchanged. *)
Theorem C7_permission_errors_are_intercepted :
  (forall (json : ResponseJson) (errorList : list GraphQLError)
          (e : GraphQLError) (text needle : string),
      errors json = Some errorList -> In e errorList ->
      message e = Some text -> In needle permissionMarkers ->
      contains text needle ->
      loader (Resolved json)
      = JS.Return (AccessDenied "access_denied" remediation)) /\
  (forall error : Exception,
      (forall text needle,
          exn_message error = Some text -> In needle permissionMarkers ->
          ~ contains text needle) ->
      loader (Rejected error) = JS.Throw error).
Proof.
  split.
  - intros json errorList e text needle Herrors Hin Hmessage Hneedle Hc.
    unfold loader, accessDenied. rewrite Herrors.
    assert (Hsome : existsb (fun error => isPermissionMessage (message error))
                            errorList = true).
    { apply existsb_exists. exists e. split; [exact Hin |].
      apply isPermissionMessage_true. now exists text, needle. }
    now rewrite Hsome.
  - intros error Hnone. unfold loader.
    now rewrite (isPermissionMessage_false _ Hnone).
Qed.

Lemma C7_witness :
  loader (Resolved {| errors :=
                        Some [{| message := None |};
                              {| message :=
                                   Some "Access denied for Order object" |}];
                      data := None |})
  = JS.Return (AccessDenied "access_denied" remediation) /\
  loader (Rejected {| exn_name := "TypeError";
                      exn_message := Some "fetch failed" |})
  = JS.Throw {| exn_name := "TypeError"; exn_message := Some "fetch failed" |}.
Proof.
  split.
  - apply (proj1 C7_permission_errors_are_intercepted _
             [{| message := None |};
              {| message := Some "Access denied for Order object" |}]
             {| message := Some "Access denied for Order object" |}
             "Access denied for Order object" "Access denied").
    + reflexivity.
    + right; left; reflexivity.
    + reflexivity.
    + left; reflexivity.
    + exists "", " for Order object". reflexivity.
  - apply (proj2 C7_permission_errors_are_intercepted).
    intros text needle Htext Hneedle. injection Htext as <-.
    intros Hc. apply includes_spec in Hc.
    simpl in Hneedle. destruct Hneedle as [<- | [<- | [<- | []]]];
      vm_compute in Hc; discriminate Hc.
Defined.

End Loader.

(** ** Text truncation *)

Module Truncation.
Import QRCodes.

Lemma substring_prefix (n : nat) (s : string) :
  (n <= String.length s)%nat ->
  exists dropped,
    s = String.substring 0 n s ++ dropped /\
    String.length (String.substring 0 n s) = n.
Proof.
  revert s. induction n as [| n IH]; intros s Hn.
  - exists s. destruct s; split; reflexivity.
  - destruct s as [| c s]; [simpl in Hn; lia |].
    destruct (IH s) as [dropped [Hs Hlen]]; [simpl in Hn; lia |].
    exists dropped. split.
    + change (String c s = String c (String.substring 0 n s ++ dropped)).
      f_equal. exact Hs.
    + simpl. now rewrite Hlen.
Qed.

Lemma slice_prefix (text : string) (n : Z) :
  0 <= n <= Z.of_nat (String.length text) ->
  JS.slice text 0 n = String.substring 0 (Z.to_nat n) text.
Proof.
  intros Hn. unfold JS.slice.
  replace (0 <? 0) with false by reflexivity.
  replace (n <? 0) with false by (symmetry; apply Z.ltb_ge; lia).
  rewrite Z.min_l by lia. rewrite (Z.min_l n) by lia.
  now rewrite Z.sub_0_r, Z.max_l by lia.
Qed.

Lemma truncate_nonempty (text : string) (length : option Z) :
  text <> "" ->
  truncate (Some text) length =
  if Z.of_nat (String.length text) >? default 50 length
  then JS.slice text 0 (default 50 length) ++ "..."
  else text.
Proof.
  intros Hne. unfold truncate, JS.truthy.
  destruct (String.eqb_spec text ""); [contradiction | reflexivity].
Qed.

(** A negative [length] is below every string length, and [slice] then
    counts it from the end of the text. *)
Example truncate_negative_length :
  truncate (Some "abcdef") (Some (-2)) = "abcd...".
Proof. vm_compute. reflexivity. Qed.

(** C8. For every string and every maximum length (50 when absent),
    [truncate] returns the string unchanged when its length is within the
    limit, and otherwise its first [length] characters followed by "...";
    an empty or absent input gives the empty string.  So
    truncate("abcdefghij", 5) = "abcde...", truncate("", 5) = "" and
    truncate(undefined) = "". *)
Theorem C8_truncate_keeps_a_prefix :
  (forall (text : string) (length : option Z),
      0 <= default 50 length ->
      (Z.of_nat (String.length text) <= default 50 length ->
       truncate (Some text) length = text) /\
      (default 50 length < Z.of_nat (String.length text) ->
       exists kept dropped,
         text = kept ++ dropped /\
         Z.of_nat (String.length kept) = default 50 length /\
         truncate (Some text) length = kept ++ "...")) /\
  (forall length : option Z,
      truncate None length = "" /\ truncate (Some "") length = "") /\
  truncate (Some "abcdefghij") (Some 5) = "abcde..." /\
  truncate (Some "") (Some 5) = "" /\
  truncate None None = "".
Proof.
  split; [| split; [intros length; split; reflexivity |
                    repeat split; reflexivity]].
  intros text length Hpos. split.
  - intros Hfit. destruct (String.eqb_spec text "") as [-> | Hne];
      [reflexivity |].
    rewrite truncate_nonempty by exact Hne.
    replace (Z.of_nat (String.length text) >? default 50 length) with false;
      [reflexivity |].
    symmetry. rewrite Z.gtb_ltb. apply Z.ltb_ge. exact Hfit.
  - intros Hlong.
    assert (Hne : text <> "") by (intros ->; simpl in Hlong; lia).
    rewrite truncate_nonempty by exact Hne.
    replace (Z.of_nat (String.length text) >? default 50 length) with true
      by (symmetry; rewrite Z.gtb_ltb; apply Z.ltb_lt; exact Hlong).
    rewrite slice_prefix by lia.
    destruct (substring_prefix (Z.to_nat (default 50 length)) text)
      as [dropped [Htext Hlen]]; [lia |].
    exists (String.substring 0 (Z.to_nat (default 50 length)) text), dropped.
    split; [exact Htext | split; [| reflexivity]].
    rewrite Hlen. apply Z2Nat.id. exact Hpos.
Qed.

Lemma C8_witness :
  truncate (Some "QR code") None = "QR code" /\
  exists kept dropped,
    "abcdefghij" = kept ++ dropped /\
    Z.of_nat (String.length kept) = default 50 (Some 5) /\
    truncate (Some "abcdefghij") (Some 5) = kept ++ "...".
Proof.
  split.
  - apply (proj1 C8_truncate_keeps_a_prefix "QR code" None);
      vm_compute; discriminate.
  - apply (proj1 C8_truncate_keeps_a_prefix "abcdefghij" (Some 5));
      vm_compute; [discriminate | reflexivity].
Defined.

End Truncation.

(** ** Numbers read from text *)

Module NumberFacts.

Lemma shr_1_positive r m :
  shr_m r = Zpos m -> 2 <= Zpos (digits2_pos m) ->
  exists m', shr_m (shr_1 r) = Zpos m' /\
             Zpos (digits2_pos m') = Zpos (digits2_pos m) - 1.
Proof.
  destruct r as [m0 b s]. simpl. intros -> Hd.
  destruct m as [q | q |]; simpl in *.
  - exists q. split; [reflexivity | lia].
  - exists q. split; [reflexivity | lia].
  - lia.
Qed.

Lemma iter_shr_1_positive p :
  forall r m,
    shr_m r = Zpos m -> Zpos p < Zpos (digits2_pos m) ->
    exists m', shr_m (SpecFloat.iter_pos shr_1 p r) = Zpos m' /\
               Zpos (digits2_pos m') = Zpos (digits2_pos m) - Zpos p.
Proof.
  induction p as [p IH | p IH |]; intros r m Hr Hp; simpl SpecFloat.iter_pos.
  - destruct (shr_1_positive r m Hr ltac:(lia)) as (m1 & H1 & D1).
    destruct (IH _ m1 H1 ltac:(lia)) as (m2 & H2 & D2).
    destruct (IH _ m2 H2 ltac:(lia)) as (m3 & H3 & D3).
    exists m3. split; [exact H3 | lia].
  - destruct (IH _ m Hr ltac:(lia)) as (m2 & H2 & D2).
    destruct (IH _ m2 H2 ltac:(lia)) as (m3 & H3 & D3).
    exists m3. split; [exact H3 | lia].
  - destruct (shr_1_positive r m Hr ltac:(lia)) as (m1 & H1 & D1).
    exists m1. split; [exact H1 | lia].
Qed.

Lemma shr_record_of_loc_m m l : shr_m (shr_record_of_loc m l) = m.
Proof. destruct l as [| []]; reflexivity. Qed.

Lemma shr_fexp_positive m e l :
  -1074 <= e ->
  exists r e' m',
    shr_fexp Number.prec Number.emax (Zpos m) e l = (r, e') /\
    shr_m r = Zpos m' /\ -1074 <= e'.
Proof.
  intros He. unfold shr_fexp, shr.
  destruct (fexp Number.prec Number.emax (Zdigits2 (Zpos m) + e) - e)
    as [| p | p] eqn:Hn.
  - eexists _, _, m. split; [reflexivity |].
    split; [apply shr_record_of_loc_m | exact He].
  - destruct (iter_shr_1_positive p (shr_record_of_loc (Zpos m) l) m)
      as (m' & Hm' & _).
    + apply shr_record_of_loc_m.
    + unfold fexp, emin, Number.prec, Number.emax in Hn. simpl Zdigits2 in Hn.
      lia.
    + eexists _, _, m'. split; [reflexivity | split; [exact Hm' | lia]].
  - eexists _, _, m. split; [reflexivity |].
    split; [apply shr_record_of_loc_m | exact He].
Qed.

Lemma round_nearest_even_positive m l :
  exists m', round_nearest_even (Zpos m) l = Zpos m'.
Proof.
  destruct l as [| c]; [now exists m |].
  unfold round_nearest_even.
  destruct c; [destruct (Z.even (Zpos m)) | |]; simpl; eauto.
Qed.

Lemma binary_round_aux_positive s m e :
  -1074 <= e ->
  (exists m' e', binary_round_aux Number.prec Number.emax s (Zpos m) e loc_Exact
                 = S754_finite s m' e') \/
  binary_round_aux Number.prec Number.emax s (Zpos m) e loc_Exact
  = S754_infinity s.
Proof.
  intros He. unfold binary_round_aux.
  destruct (shr_fexp_positive m e loc_Exact He) as (r & e' & m' & -> & Hm & He').
  rewrite Hm.
  destruct (round_nearest_even_positive m' (loc_of_shr_record r)) as [m'' ->].
  destruct (shr_fexp_positive m'' e' loc_Exact He')
    as (r2 & e2 & m2 & -> & Hm2 & _).
  rewrite Hm2.
  destruct (e2 <=? Number.emax - Number.prec); eauto.
Qed.

Lemma binary_round_positive s p :
  (exists m e, binary_round Number.prec Number.emax s p 0 = S754_finite s m e) \/
  binary_round Number.prec Number.emax s p 0 = S754_infinity s.
Proof.
  unfold binary_round.
  destruct (shl_align p 0 _) as [mz ez] eqn:Halign.
  apply binary_round_aux_positive.
  unfold shl_align in Halign.
  destruct (fexp Number.prec Number.emax (Z.pos (digits2_pos p) + 0) - 0)
    eqn:Hd; injection Halign as <- <-; try lia.
  unfold fexp, emin, Number.prec, Number.emax. lia.
Qed.

(** The Number of an integer is never NaN. *)
Lemma of_Z_not_NaN z : Number.isNaN (Number.of_Z z) = false.
Proof.
  unfold Number.of_Z, binary_normalize. destruct z as [| p | p].
  - reflexivity.
  - destruct (binary_round_positive false p) as [(m & e & ->) | ->]; reflexivity.
  - destruct (binary_round_positive true p) as [(m & e & ->) | ->]; reflexivity.
Qed.

(** It is below 0 exactly when the integer is. *)
Lemma of_Z_lt_0 z : Number.lt (Number.of_Z z) (Number.of_Z 0) = (z <? 0).
Proof.
  unfold Number.of_Z at 1, binary_normalize. destruct z as [| p | p].
  - reflexivity.
  - destruct (binary_round_positive false p) as [(m & e & ->) | ->]; reflexivity.
  - destruct (binary_round_positive true p) as [(m & e & ->) | ->]; reflexivity.
Qed.

Lemma toNumber_not_NaN negative mathInt :
  Number.isNaN (Number.toNumber negative mathInt) = false.
Proof.
  unfold Number.toNumber. destruct (mathInt =? 0); [reflexivity |].
  apply of_Z_not_NaN.
Qed.

(** [sign * mathInt] is below 0 exactly with a minus sign and a non-zero
    integer: -0 is not. *)
Lemma toNumber_lt_0 negative mathInt :
  0 <= mathInt ->
  Number.lt (Number.toNumber negative mathInt) (Number.of_Z 0)
  = negative && (0 <? mathInt).
Proof.
  intros Hpos. unfold Number.toNumber.
  destruct (Z.eqb_spec mathInt 0) as [-> | Hne].
  - now destruct negative.
  - rewrite of_Z_lt_0. destruct negative; simpl.
    + destruct (Z.ltb_spec (- mathInt) 0), (Z.ltb_spec 0 mathInt);
        try reflexivity; lia.
    + apply Z.ltb_ge. exact Hpos.
Qed.

Lemma toNumber_positive mathInt :
  Number.toNumber false mathInt = Number.of_Z mathInt.
Proof.
  unfold Number.toNumber. now destruct (Z.eqb_spec mathInt 0) as [-> | Hne].
Qed.

Lemma digitValue_range c d : JS.digitValue c = Some d -> 0 <= d <= 9.
Proof.
  unfold JS.digitValue.
  destruct ((48 <=? Z.of_N (N_of_ascii c)) && (Z.of_N (N_of_ascii c) <=? 57))
    eqn:Hc; [| discriminate].
  apply andb_true_iff in Hc as [Hlo Hhi].
  apply Z.leb_le in Hlo, Hhi. intros H. injection H as <-. lia.
Qed.

Lemma parseDigits_Some s :
  forall z, 0 <= z ->
    exists z', JS.parseDigits s (Some z) = Some z' /\ 0 <= z'.
Proof.
  induction s as [| c s IH]; intros z Hz; [now exists z |].
  simpl. destruct (JS.digitValue c) as [d |] eqn:Hd; [| now exists z].
  apply digitValue_range in Hd. apply IH. lia.
Qed.

Lemma parseDigits_nonneg s z : JS.parseDigits s None = Some z -> 0 <= z.
Proof.
  destruct s as [| c s]; [discriminate |].
  simpl. destruct (JS.digitValue c) as [d |] eqn:Hd; [| discriminate].
  apply digitValue_range in Hd.
  destruct (parseDigits_Some s (10 * 0 + d) ltac:(lia)) as [z' [-> Hz']].
  now intros [= <-].
Qed.

(** The integer [parseInt] reads is never negative: the sign is apart. *)
Lemma parseIntMath_nonneg s negative mathInt :
  JS.parseIntMath s = Some (negative, mathInt) -> 0 <= mathInt.
Proof.
  unfold JS.parseIntMath.
  assert (Hgen : forall b t,
             option_map (pair b) (JS.parseDigits t None)
             = Some (negative, mathInt) -> 0 <= mathInt).
  { intros b t H. destruct (JS.parseDigits t None) as [z |] eqn:Hz;
      [| discriminate H].
    injection H as _ <-. exact (parseDigits_nonneg t z Hz). }
  destruct (JS.trimStart s) as [| c rest]; [apply Hgen |].
  destruct c as [[] [] [] [] [] [] [] []]; apply Hgen.
Qed.

(** [Number.isNaN(Number.parseInt(s, 10))] holds exactly when [s] has no
    leading integer. *)
Lemma parseInt_isNaN s :
  Number.isNaN (Number.parseInt s)
  = match JS.parseIntMath s with None => true | Some _ => false end.
Proof.
  unfold Number.parseInt.
  destruct (JS.parseIntMath s) as [[negative mathInt] |]; [| reflexivity].
  apply toNumber_not_NaN.
Qed.

(** [Number.parseInt(s, 10) < 0] holds exactly with a minus sign and a
    non-zero integer. *)
Lemma parseInt_lt_0 s :
  Number.lt (Number.parseInt s) (Number.of_Z 0)
  = match JS.parseIntMath s with
    | None => false
    | Some (negative, mathInt) => negative && (0 <? mathInt)
    end.
Proof.
  unfold Number.parseInt.
  destruct (JS.parseIntMath s) as [[negative mathInt] |] eqn:Hs;
    [| reflexivity].
  apply toNumber_lt_0. exact (parseIntMath_nonneg s _ _ Hs).
Qed.

End NumberFacts.

(** ** The profile form *)

Module ProfileForm.
Import Profile.




Lemma truthy_Some s : JS.truthy (Some s) = negb (bool_decide (s = "")).
Proof.
  unfold JS.truthy. destruct (String.eqb_spec s "") as [-> | Hne].
  - reflexivity.
  - now rewrite bool_decide_eq_false_2.
Qed.

Lemma sanitizeText_string raw :
  sanitizeText (Some (FormString raw)) = JS.trim raw.
Proof.
  unfold sanitizeText, JS.or_else, JS.truthy. simpl.
  destruct (String.eqb_spec (JS.trim raw) "") as [-> | Hne]; reflexivity.
Qed.

Lemma size_zero_iff (errors : gmap string string) :
  (Z.of_nat (size errors) =? 0) = true <-> errors = ∅.
Proof.
  rewrite Z.eqb_eq, <- (map_size_empty_iff errors). lia.
Qed.

(** The [errors] object, rule by rule. *)
Lemma validate_rules (name ageValue : string) :
  validate name ageValue (Number.parseInt ageValue) !! "name"
  = (if decide (name = "") then Some "Name is required" else None) /\
  validate name ageValue (Number.parseInt ageValue) !! "age"
  = ageError ageValue /\
  (forall field, field <> "name" -> field <> "age" ->
                 validate name ageValue (Number.parseInt ageValue) !! field
                 = None).
Proof.
  unfold validate, ageError.
  rewrite !truthy_Some, !negb_involutive.
  rewrite NumberFacts.parseInt_isNaN, NumberFacts.parseInt_lt_0.
  destruct (decide (name = "")) as [Hname | Hname];
    [rewrite (bool_decide_eq_true_2 _ Hname)
    | rewrite (bool_decide_eq_false_2 _ Hname)];
    (destruct (decide (ageValue = "")) as [Hage | Hage];
     [rewrite (bool_decide_eq_true_2 _ Hage)
     | rewrite (bool_decide_eq_false_2 _ Hage)]);
    try (destruct (JS.parseIntMath ageValue) as [[negative mathInt] |];
         cbn [orb]; [destruct (negative && (0 <? mathInt)) |]);
    (split; [| split]);
    try (intros field Hf1 Hf2);
    rewrite ?lookup_insert_ne by congruence;
    rewrite ?lookup_insert_eq, ?lookup_empty; reflexivity.
Qed.

(** No rule is violated exactly when [errors] is empty. *)
Lemma validate_empty_iff (name ageValue : string) :
  validate name ageValue (Number.parseInt ageValue) = ∅ <->
  name <> "" /\ ageValue <> "" /\
  exists negative mathInt,
    JS.parseIntMath ageValue = Some (negative, mathInt) /\
    0 <= mathInt /\ (negative = true -> mathInt = 0).
Proof.
  destruct (validate_rules name ageValue) as (Hn & Ha & Hother).
  unfold ageError in Ha. split.
  - intros Hempty. rewrite Hempty, lookup_empty in Hn, Ha.
    destruct (decide (name = "")) as [? | Hname]; [discriminate Hn |].
    destruct (decide (ageValue = "")) as [? | Hage]; [discriminate Ha |].
    destruct (JS.parseIntMath ageValue) as [[negative mathInt] |] eqn:Hparse;
      [| discriminate Ha].
    destruct (negative && (0 <? mathInt)) eqn:Hneg; [discriminate Ha |].
    pose proof (NumberFacts.parseIntMath_nonneg _ _ _ Hparse) as Hpos.
    repeat split; try assumption. exists negative, mathInt.
    split; [reflexivity | split; [exact Hpos |]].
    intros ->. simpl in Hneg. apply Z.ltb_ge in Hneg. lia.
  - intros (Hname & Hage & negative & mathInt & Hparse & Hpos & Hzero).
    apply map_eq. intros field. rewrite lookup_empty.
    destruct (decide (field = "name")) as [-> | Hf1].
    { rewrite Hn. now destruct (decide (name = "")). }
    destruct (decide (field = "age")) as [-> | Hf2].
    { rewrite Ha, Hparse.
      destruct (decide (ageValue = "")); [contradiction |].
      destruct negative; [| reflexivity].
      rewrite (Hzero eq_refl). reflexivity. }
    now apply Hother.
Qed.

Lemma action_invalid formData profiles :
  validate (sanitizeText (get formData "name"))
           (sanitizeText (get formData "age"))
           (Number.parseInt (sanitizeText (get formData "age"))) <> ∅ ->
  action formData profiles
  = (BadRequest
       (validate (sanitizeText (get formData "name"))
                 (sanitizeText (get formData "age"))
                 (Number.parseInt (sanitizeText (get formData "age"))))
       {| values_name := sanitizeText (get formData "name");
          values_age := sanitizeText (get formData "age") |},
     profiles).
Proof.
  intros Hne. unfold action.
  destruct (Z.of_nat (size _) =? 0) eqn:Hsize; [| reflexivity].
  apply size_zero_iff in Hsize. contradiction.
Qed.

Lemma action_valid formData profiles :
  validate (sanitizeText (get formData "name"))
           (sanitizeText (get formData "age"))
           (Number.parseInt (sanitizeText (get formData "age"))) = ∅ ->
  action formData profiles
  = (Redirect "/app/profile",
     (profiles ++
      [{| name := sanitizeText (get formData "name");
          age := Number.parseInt (sanitizeText (get formData "age")) |}])%list).
Proof.
  intros Hempty. unfold action.
  now rewrite (proj2 (size_zero_iff _) Hempty).
Qed.

(** [parseInt] reads the longest prefix of digits: a trailing text does
    not make the age invalid. *)
Example action_accepts_digit_prefix :
  action (formOf " Ann " "12abc") []
  = (Redirect "/app/profile", [{| name := "Ann"; age := Number.of_Z 12 |}]).
Proof. vm_compute. reflexivity. Qed.

(** The age is stored as a double: beyond 2^53 it is the nearest one, and
    a text of 310 digits is accepted as +Infinity. *)
Example action_rounds_a_long_age :
  action (formOf "Ann" "9007199254740993") []
  = (Redirect "/app/profile",
     [{| name := "Ann"; age := Number.of_Z 9007199254740992 |}]) /\
  action (formOf "Ann" (nines 310)) []
  = (Redirect "/app/profile",
     [{| name := "Ann"; age := S754_infinity false |}]).
Proof. split; vm_compute; reflexivity. Qed.



End ProfileForm.

(** * Further properties of the classifier *)

Module ClassifierLaws.
Import Orders.
Local Open Scope list_scope.

Lemma hasRecognizedStatus_spec f :
  hasRecognizedStatus f = true <-> recognized (effectiveStatus f).
Proof.
  unfold hasRecognizedStatus, recognized.
  rewrite !orb_true_iff, !bool_decide_eq_true. tauto.
Qed.

Lemma status_of_scan o :
  getOrderFulfillmentStatus o
  = default "NOT_DELIVERED" (primaryScan (default [] (fulfillments o))).
Proof.
  destruct (fulfillments o) as [fs |] eqn:Hfs.
  - unfold getOrderFulfillmentStatus. simpl default at 2.
    destruct (primaryScan fs) as [l |] eqn:Hl.
    + now rewrite (Classifier.classify_hit o fs l Hfs Hl).
    + apply (Classifier.classify_miss o fs Hfs Hl).
  - unfold getOrderFulfillmentStatus.
    now rewrite Classifier.classify_empty by now left.
Qed.

Lemma primaryScan_not_default fs :
  primaryScan fs <> Some "NOT_DELIVERED".
Proof.
  intros H. apply Classifier.primaryScan_label in H.
  destruct H as [H | [H | H]]; discriminate H.
Qed.

Lemma primaryScan_app fs more :
  primaryScan (fs ++ more)
  = match primaryScan fs with
    | Some l => Some l
    | None => primaryScan more
    end.
Proof.
  induction fs as [| f fs IH]; [reflexivity |].
  rewrite <- app_comm_cons, !Classifier.primaryScan_cons.
  repeat case_decide; try reflexivity. exact IH.
Qed.

Lemma primaryScan_split fs l :
  primaryScan fs = Some l ->
  exists pre f post,
    fs = pre ++ f :: post /\
    Forall (fun g => ~ recognized (effectiveStatus g)) pre /\
    effectiveStatus f = Some l.
Proof.
  induction fs as [| f fs IH]; [discriminate |].
  destruct (hasRecognizedStatus f) eqn:Hf.
  - apply hasRecognizedStatus_spec in Hf. intros Hscan.
    exists [], f, fs. split; [reflexivity | split; [constructor |]].
    destruct Hf as [Hf | [Hf | Hf]];
      rewrite (Classifier.primaryScan_hit f fs _ Hf) in Hscan
        by (unfold recognized; tauto);
      now injection Hscan as <-.
  - assert (Hn : ~ recognized (effectiveStatus f)).
    { intros Hr. apply hasRecognizedStatus_spec in Hr. congruence. }
    rewrite (Classifier.primaryScan_skip f fs Hn). intros Hscan.
    destruct (IH Hscan) as (pre & g & post & -> & Hpre & Hg).
    exists (f :: pre), g, post. split; [reflexivity | split; [| exact Hg]].
    now constructor.
Qed.

Lemma primaryScan_filter fs :
  primaryScan (List.filter hasRecognizedStatus fs) = primaryScan fs.
Proof.
  induction fs as [| f fs IH]; [reflexivity |].
  simpl List.filter. destruct (hasRecognizedStatus f) eqn:Hf.
  - rewrite !Classifier.primaryScan_cons. now rewrite IH.
  - assert (Hn : ~ recognized (effectiveStatus f)).
    { intros Hr. apply hasRecognizedStatus_spec in Hr. congruence. }
    now rewrite (Classifier.primaryScan_skip f fs Hn).
Qed.

Lemma primaryScan_ext fs1 fs2 :
  map effectiveStatus fs1 = map effectiveStatus fs2 ->
  primaryScan fs1 = primaryScan fs2.
Proof.
  revert fs2. induction fs1 as [| f fs1 IH]; intros [| g fs2] H;
    try discriminate H; [reflexivity |].
  simpl in H. injection H as Hf Hrest.
  rewrite !Classifier.primaryScan_cons, Hf, (IH fs2 Hrest). reflexivity.
Qed.

(** X1. An order is NOT_DELIVERED exactly when none of its fulfillments
    has effective status DELIVERED, FULFILLED or IN_TRANSIT. *)
Theorem not_delivered_iff_nothing_recognized (o : Order) :
  getOrderFulfillmentStatus o = "NOT_DELIVERED" <->
  Forall (fun g => ~ recognized (effectiveStatus g))
         (default [] (fulfillments o)).
Proof.
  rewrite status_of_scan, <- Classifier.primaryScan_None.
  destruct (primaryScan (default [] (fulfillments o))) as [l |] eqn:Hl.
  - simpl. split; [| discriminate]. intros ->.
    now apply primaryScan_not_default in Hl.
  - now split.
Qed.

Lemma not_delivered_witness :
  getOrderFulfillmentStatus
    (orderOf (Some [withStatus (Some "PENDING"); withDisplayStatus None]))
  = "NOT_DELIVERED".
Proof.
  apply (proj2 (not_delivered_iff_nothing_recognized
                  (orderOf (Some [withStatus (Some "PENDING");
                                  withDisplayStatus None])))).
  repeat constructor; vm_compute; intros [H | [H | H]]; discriminate H.
Defined.

(** X2. When the classifier returns a label other than NOT_DELIVERED, some
    fulfillment has that effective status and no earlier fulfillment has a
    recognized one. *)
Theorem recognized_label_has_a_first_fulfillment (o : Order) (l : string) :
  getOrderFulfillmentStatus o = l -> l <> "NOT_DELIVERED" ->
  exists pre f post,
    fulfillments o = Some (pre ++ f :: post) /\
    Forall (fun g => ~ recognized (effectiveStatus g)) pre /\
    effectiveStatus f = Some l /\ recognized (Some l).
Proof.
  rewrite status_of_scan. intros Hl Hne.
  destruct (fulfillments o) as [fs |]; [| simpl in Hl; congruence].
  simpl default at 2 in Hl.
  destruct (primaryScan fs) as [l' |] eqn:Hscan; [| simpl in Hl; congruence].
  simpl in Hl. subst l'.
  destruct (primaryScan_split fs l Hscan) as (pre & f & post & -> & Hpre & Hf).
  exists pre, f, post. repeat split; try assumption.
  unfold recognized.
  destruct (Classifier.primaryScan_label _ _ Hscan) as [-> | [-> | ->]]; tauto.
Qed.

Lemma recognized_label_witness :
  exists pre f post,
    fulfillments (orderOf (Some [withStatus None;
                                 withDisplayStatus (Some "IN_TRANSIT")]))
    = Some (pre ++ f :: post) /\
    Forall (fun g => ~ recognized (effectiveStatus g)) pre /\
    effectiveStatus f = Some "IN_TRANSIT" /\ recognized (Some "IN_TRANSIT").
Proof.
  apply (recognized_label_has_a_first_fulfillment
           (orderOf (Some [withStatus None;
                           withDisplayStatus (Some "IN_TRANSIT")]))).
  - reflexivity.
  - discriminate.
Defined.

(** X3. Fulfillments without a recognized effective status never influence
    the label: dropping them from the order leaves it unchanged. *)
Theorem unrecognized_fulfillments_are_ignored (o o' : Order) :
  fulfillments o'
  = Some (List.filter hasRecognizedStatus (default [] (fulfillments o))) ->
  getOrderFulfillmentStatus o' = getOrderFulfillmentStatus o.
Proof.
  intros Hfs. rewrite !status_of_scan, Hfs. simpl default at 2.
  now rewrite primaryScan_filter.
Qed.

Lemma unrecognized_ignored_witness :
  getOrderFulfillmentStatus
    (orderOf (Some [withStatus (Some "FULFILLED")]))
  = getOrderFulfillmentStatus
      (orderOf (Some [withStatus (Some "PENDING");
                      withStatus (Some "FULFILLED");
                      withDisplayStatus (Some "CANCELED")])).
Proof.
  apply unrecognized_fulfillments_are_ignored. reflexivity.
Defined.

(** X4. The label depends only on the effective statuses of the
    fulfillments, in order: the order's id, name, createdAt and
    displayFulfillmentStatus, and a [status] behind a non-empty
    [displayStatus], play no part. *)
Theorem label_depends_on_effective_statuses_only (o1 o2 : Order) :
  map effectiveStatus (default [] (fulfillments o1))
  = map effectiveStatus (default [] (fulfillments o2)) ->
  getOrderFulfillmentStatus o1 = getOrderFulfillmentStatus o2.
Proof.
  intros H. rewrite !status_of_scan. now rewrite (primaryScan_ext _ _ H).
Qed.

Lemma label_depends_witness :
  getOrderFulfillmentStatus
    {| id := "gid://shopify/Order/7"; name := "#1007";
       createdAt := "2024-05-01T00:00:00Z";
       displayFulfillmentStatus := Some "FULFILLED";
       fulfillments :=
         Some [{| status := Some "SUCCESS";
                  displayStatus := Some "IN_TRANSIT" |}] |}
  = getOrderFulfillmentStatus
      {| id := "gid://shopify/Order/8"; name := "#1008";
         createdAt := "2024-06-01T00:00:00Z";
         displayFulfillmentStatus := None;
         fulfillments :=
           Some [{| status := None; displayStatus := Some "IN_TRANSIT" |}] |}.
Proof.
  apply label_depends_on_effective_statuses_only. reflexivity.
Defined.

(** X5. Classifying two fulfillment lists one after the other: the label
    of the first part when it is not NOT_DELIVERED, the label of the second
    part otherwise.  So fulfillments added after a recognized one never
    change the label. *)
Theorem label_of_appended_fulfillments (o o1 o2 : Order)
        (fs more : list Fulfillment) :
  fulfillments o1 = Some fs -> fulfillments o2 = Some more ->
  fulfillments o = Some (fs ++ more) ->
  getOrderFulfillmentStatus o
  = if decide (getOrderFulfillmentStatus o1 = "NOT_DELIVERED")
    then getOrderFulfillmentStatus o2
    else getOrderFulfillmentStatus o1.
Proof.
  intros H1 H2 H. rewrite !status_of_scan, H1, H2, H. simpl default.
  rewrite primaryScan_app.
  destruct (primaryScan fs) as [l |] eqn:Hl; simpl.
  - destruct (decide (l = "NOT_DELIVERED")) as [Heq | Heq]; [| reflexivity].
    subst l. now apply primaryScan_not_default in Hl.
  - destruct (decide ("NOT_DELIVERED" = "NOT_DELIVERED")) as [Heq | Heq];
      [reflexivity | contradiction].
Qed.

Lemma label_of_appended_witness :
  getOrderFulfillmentStatus
    (orderOf (Some ([withStatus (Some "IN_TRANSIT")] ++
                    [withStatus (Some "DELIVERED")])))
  = if decide (getOrderFulfillmentStatus
                 (orderOf (Some [withStatus (Some "IN_TRANSIT")]))
               = "NOT_DELIVERED")
    then getOrderFulfillmentStatus
           (orderOf (Some [withStatus (Some "DELIVERED")]))
    else getOrderFulfillmentStatus
           (orderOf (Some [withStatus (Some "IN_TRANSIT")])).
Proof.
  apply (label_of_appended_fulfillments _ _ _
           [withStatus (Some "IN_TRANSIT")] [withStatus (Some "DELIVERED")]);
    reflexivity.
Defined.

End ClassifierLaws.

(** * Further properties of the orders loader *)

Module LoaderLaws.
Import Orders.
Local Open Scope list_scope.

(** *** The buckets *)

Lemma labelCount_cons label o orderList :
  labelCount label (o :: orderList)
  = (if String.eqb (getOrderFulfillmentStatus o) label then 1 else 0)
    + labelCount label orderList.
Proof.
  unfold labelCount. simpl List.filter.
  destruct (String.eqb (getOrderFulfillmentStatus o) label);
    cbn [length]; lia.
Qed.

Lemma labelCount_nonneg label orderList : 0 <= labelCount label orderList.
Proof. unfold labelCount. lia. Qed.

(** One iteration adds one to the bucket of the order's label and leaves
    every other key as it is. *)
Lemma countOrder_lookup statusCounts seen o key :
  countsInvariant statusCounts seen ->
  countOrder statusCounts o !! key
  = (fun n => n + (if String.eqb (getOrderFulfillmentStatus o) key
                   then 1 else 0)) <$> statusCounts !! key.
Proof.
  intros (d & n & f & i & Hd & Hn & Hf & Hi & _).
  assert (Hsome : exists a,
             statusCounts !! getOrderFulfillmentStatus o = Some a).
  { destruct (Classifier.getOrderFulfillmentStatus_cases o)
      as [-> | [-> | [-> | ->]]]; eauto. }
  destruct Hsome as [a Ha]. unfold countOrder. rewrite Ha.
  destruct (String.eqb_spec (getOrderFulfillmentStatus o) key) as [<- | Hne].
  - now rewrite lookup_insert_eq, Ha.
  - rewrite lookup_insert_ne by exact Hne.
    destruct (statusCounts !! key) as [b |]; simpl; [| reflexivity].
    now rewrite Z.add_0_r.
Qed.

Lemma fold_countOrder_lookup orderList :
  forall statusCounts seen key,
    countsInvariant statusCounts seen ->
    fold_left countOrder orderList statusCounts !! key
    = (fun n => n + labelCount key orderList) <$> statusCounts !! key.
Proof.
  induction orderList as [| o orderList IH]; intros statusCounts seen key Hinv.
  - simpl. destruct (statusCounts !! key); simpl; [| reflexivity].
    unfold labelCount. simpl. now rewrite Z.add_0_r.
  - cbn [fold_left].
    rewrite (IH _ (seen + 1) key (Loader.countOrder_invariant _ _ o Hinv)).
    rewrite (countOrder_lookup _ seen o key Hinv), labelCount_cons.
    destruct (statusCounts !! key); simpl; [| reflexivity].
    f_equal. lia.
Qed.

Lemma countStatuses_lookup orderList key :
  countStatuses orderList !! key
  = (fun n => n + labelCount key orderList) <$> initialCounts !! key.
Proof.
  apply (fold_countOrder_lookup orderList initialCounts 0 key).
  exact Loader.initialCounts_invariant.
Qed.

Lemma initialCounts_lookup key :
  initialCounts !! key = if bool_decide (In key statusKeys) then Some 0 else None.
Proof.
  unfold initialCounts.
  destruct (decide (key = "DELIVERED")) as [-> | H1]; [reflexivity |].
  destruct (decide (key = "NOT_DELIVERED")) as [-> | H2]; [reflexivity |].
  destruct (decide (key = "FULFILLED")) as [-> | H3]; [reflexivity |].
  destruct (decide (key = "IN_TRANSIT")) as [-> | H4]; [reflexivity |].
  rewrite !lookup_insert_ne, lookup_empty by congruence.
  rewrite bool_decide_eq_false_2; [reflexivity |].
  simpl. intros [? | [? | [? | [? | []]]]]; congruence.
Qed.

(** X6. Each bucket of the loader's statusCounts is the number of fetched
    orders that the classifier gives that label. *)
Theorem bucket_counts_the_orders_of_its_label
  (json : ResponseJson) (totalOrders : Z) (statusCounts : gmap string Z)
  (percentages : Percentages) (error : option string) :
  loader (Resolved json)
  = JS.Return (Overview totalOrders statusCounts percentages error) ->
  forall key, In key statusKeys ->
    statusCounts !! key = Some (labelCount key (ordersOf json)).
Proof.
  intros H key Hkey. apply Loader.loader_overview, Loader.overview_inv in H.
  destruct H as (_ & -> & _).
  rewrite countStatuses_lookup, initialCounts_lookup.
  now rewrite bool_decide_eq_true_2 by exact Hkey.
Qed.

Lemma bucket_counts_witness :
  countStatuses sampleOrders !! "FULFILLED"
  = Some (labelCount "FULFILLED" (ordersOf (responseOf sampleOrders))).
Proof.
  apply (bucket_counts_the_orders_of_its_label
           (responseOf sampleOrders) 10 (countStatuses sampleOrders)
           (percentagesOf (countStatuses sampleOrders) 10) None).
  - reflexivity.
  - right; right; left; reflexivity.
Defined.

(** X7. The loader's statusCounts has the four keys DELIVERED,
    NOT_DELIVERED, FULFILLED and IN_TRANSIT and never any other key. *)
Theorem status_counts_has_exactly_four_keys
  (json : ResponseJson) (totalOrders : Z) (statusCounts : gmap string Z)
  (percentages : Percentages) (error : option string) :
  loader (Resolved json)
  = JS.Return (Overview totalOrders statusCounts percentages error) ->
  forall key, is_Some (statusCounts !! key) <-> In key statusKeys.
Proof.
  intros H key. apply Loader.loader_overview, Loader.overview_inv in H.
  destruct H as (_ & -> & _).
  rewrite countStatuses_lookup, initialCounts_lookup.
  destruct (decide (In key statusKeys)) as [Hin | Hout].
  - rewrite bool_decide_eq_true_2 by exact Hin. simpl. split; eauto.
  - rewrite bool_decide_eq_false_2 by exact Hout. simpl. split.
    + intros [x Hx]. discriminate Hx.
    + contradiction.
Qed.

Lemma status_counts_keys_witness :
  is_Some (countStatuses sampleOrders !! "PENDING")
  <-> In "PENDING" statusKeys.
Proof.
  apply (status_counts_has_exactly_four_keys
           (responseOf sampleOrders) 10 (countStatuses sampleOrders)
           (percentagesOf (countStatuses sampleOrders) 10) None).
  reflexivity.
Defined.

Lemma labelCount_Permutation label l1 l2 :
  Permutation l1 l2 -> labelCount label l1 = labelCount label l2.
Proof.
  induction 1 as [| o l1 l2 _ IH | a b l | l1 l2 l3 _ IH1 _ IH2].
  - reflexivity.
  - now rewrite !labelCount_cons, IH.
  - rewrite !labelCount_cons. lia.
  - now rewrite IH1.
Qed.

(** X8. The overview depends on the fetched orders only through how many
    there are of each label: listing the same orders in another sequence
    gives the same loader result. *)
Theorem overview_ignores_the_sequence_of_orders (json1 json2 : ResponseJson) :
  accessDenied json1 = false -> accessDenied json2 = false ->
  Permutation (ordersOf json1) (ordersOf json2) ->
  loader (Resolved json1) = loader (Resolved json2).
Proof.
  intros H1 H2 Hperm. unfold loader. rewrite H1, H2. f_equal.
  unfold overview. rewrite (Permutation_length Hperm).
  assert (Hcounts : countStatuses (ordersOf json1)
                    = countStatuses (ordersOf json2)).
  { apply map_eq. intros key. rewrite !countStatuses_lookup.
    now rewrite (labelCount_Permutation key _ _ Hperm). }
  now rewrite Hcounts.
Qed.

Lemma overview_sequence_witness :
  loader (Resolved (responseOf [deliveredOrder; unfulfilledOrder;
                                fulfilledOrder]))
  = loader (Resolved (responseOf [fulfilledOrder; deliveredOrder;
                                  unfulfilledOrder])).
Proof.
  apply overview_ignores_the_sequence_of_orders;
    [reflexivity | reflexivity |].
  change (Permutation ([deliveredOrder; unfulfilledOrder] ++ [fulfilledOrder])
                      ([fulfilledOrder] ++ [deliveredOrder; unfulfilledOrder])).
  apply Permutation_app_comm.
Defined.

(** *** The catch clause *)

(** X9. An error thrown by the fetch whose message contains one of the
    three permission substrings is not thrown again: the loader returns
    the access_denied result.  And the loader throws only what the fetch
    threw: whenever it throws [e], the fetch was rejected with [e], whose
    message has none of the three substrings. *)
Theorem loader_throws_only_the_fetch_error :
  (forall (error : Exception) (text needle : string),
      exn_message error = Some text -> In needle permissionMarkers ->
      contains text needle ->
      loader (Rejected error)
      = JS.Return (AccessDenied "access_denied" remediation)) /\
  (forall (fetch : FetchOutcome) (e : Exception),
      loader fetch = JS.Throw e ->
      fetch = Rejected e /\
      forall text needle,
        exn_message e = Some text -> In needle permissionMarkers ->
        ~ contains text needle).
Proof.
  split.
  - intros error text needle Htext Hneedle Hc. unfold loader.
    assert (Hp : isPermissionMessage (exn_message error) = true).
    { apply Loader.isPermissionMessage_true. now exists text, needle. }
    now rewrite Hp.
  - intros [json | error] e H; unfold loader in H.
    + destruct (accessDenied json); discriminate H.
    + destruct (isPermissionMessage (exn_message error)) eqn:Hp;
        [discriminate H |].
      injection H as <-. split; [reflexivity |].
      intros text needle Htext Hneedle Hc.
      assert (Ht : isPermissionMessage (exn_message error) = true).
      { apply Loader.isPermissionMessage_true. now exists text, needle. }
      congruence.
Qed.

Lemma loader_throws_witness :
  loader (Rejected {| exn_name := "Error";
                      exn_message :=
                        Some "This app is not approved to access orders" |})
  = JS.Return (AccessDenied "access_denied" remediation) /\
  Rejected {| exn_name := "SyntaxError";
              exn_message := Some "Unexpected end of JSON input" |}
  = Rejected {| exn_name := "SyntaxError";
                exn_message := Some "Unexpected end of JSON input" |}.
Proof.
  split.
  - apply (proj1 loader_throws_only_the_fetch_error _
             "This app is not approved to access orders" "not approved").
    + reflexivity.
    + right; left; reflexivity.
    + exists "This app is ", " to access orders". reflexivity.
  - apply (proj2 loader_throws_only_the_fetch_error). reflexivity.
Defined.

(** *** The percentages as hundredths *)

Lemma belowTie_true count totalOrders :
  belowTie count totalOrders = true ->
  totalOrders = 160 /\
  (count = 23 \/ count = 41 \/ count = 51 \/ count = 87 \/ count = 97).
Proof.
  unfold belowTie. rewrite andb_true_iff, !orb_true_iff, !Z.eqb_eq. tauto.
Qed.

(** The exact round half up is within half a hundredth of the exact
    percentage, the lower end excluded. *)
Lemma halfUpHundredths_error count totalOrders :
  0 < totalOrders ->
  20000 * count - totalOrders
  < 2 * totalOrders * halfUpHundredths count totalOrders
  <= 20000 * count + totalOrders.
Proof.
  intros Ht. unfold halfUpHundredths.
  pose proof (Z.div_mod (2 * (count * 10000) + totalOrders) (2 * totalOrders)
                        ltac:(lia)) as Hdiv.
  pose proof (Z.mod_pos_bound (2 * (count * 10000) + totalOrders)
                              (2 * totalOrders) ltac:(lia)) as Hmod.
  lia.
Qed.

(** At the pairs of [belowTie] the value is the lower end itself. *)
Lemma nearTieHundredths_error count totalOrders :
  0 < totalOrders ->
  (if belowTie count totalOrders
   then 2 * totalOrders * nearTieHundredths count totalOrders
        = 20000 * count - totalOrders
   else 20000 * count - totalOrders
        < 2 * totalOrders * nearTieHundredths count totalOrders) /\
  2 * totalOrders * nearTieHundredths count totalOrders
  <= 20000 * count + totalOrders.
Proof.
  intros Ht. unfold nearTieHundredths.
  destruct (belowTie count totalOrders) eqn:Htie.
  - apply belowTie_true in Htie.
    destruct Htie as [-> [-> | [-> | [-> | [-> | ->]]]]];
      vm_compute; split; (reflexivity || discriminate).
  - pose proof (halfUpHundredths_error count totalOrders Ht). lia.
Qed.

Lemma nearTieHundredths_range count totalOrders :
  0 < totalOrders -> 0 <= count <= totalOrders ->
  0 <= nearTieHundredths count totalOrders <= 10000.
Proof.
  intros Ht Hc.
  destruct (nearTieHundredths_error count totalOrders Ht) as [Hlow Hhigh].
  assert (Hlow' : 20000 * count - totalOrders
                  <= 2 * totalOrders * nearTieHundredths count totalOrders)
    by (destruct (belowTie count totalOrders); lia).
  split; nia.
Qed.

(** The six percentages of an overview of at most 250 orders, as numbers
    of hundredths. *)
Lemma percentages_as_hundredths
  (json : ResponseJson) (totalOrders : Z) (statusCounts : gmap string Z)
  (percentages : Percentages) (error : option string) :
  loader (Resolved json)
  = JS.Return (Overview totalOrders statusCounts percentages error) ->
  0 < totalOrders <= 250 ->
  exists d n f i : Z,
    0 <= d /\ 0 <= n /\ 0 <= f /\ 0 <= i /\ d + n + f + i = totalOrders /\
    delivered percentages
    = Number.hundredths (nearTieHundredths d totalOrders) /\
    notDelivered percentages
    = Number.hundredths (nearTieHundredths (n + f + i) totalOrders) /\
    byStatus percentages !! "DELIVERED"
    = Some (Number.hundredths (nearTieHundredths d totalOrders)) /\
    byStatus percentages !! "NOT_DELIVERED"
    = Some (Number.hundredths (nearTieHundredths n totalOrders)) /\
    byStatus percentages !! "FULFILLED"
    = Some (Number.hundredths (nearTieHundredths f totalOrders)) /\
    byStatus percentages !! "IN_TRANSIT"
    = Some (Number.hundredths (nearTieHundredths i totalOrders)).
Proof.
  intros H Ht. apply Loader.loader_overview, Loader.overview_inv in H.
  destruct H as (Htotal & -> & Hdel & Hnot & Hby & _).
  destruct (Loader.countStatuses_invariant (ordersOf json))
    as (d & n & f & i & Hd & Hn & Hf & Hi & Hd0 & Hn0 & Hf0 & Hi0 & Hsum).
  rewrite <- Htotal in Hsum.
  assert (Hpct : forall c, 0 <= c <= totalOrders ->
                   percentOf c totalOrders
                   = Number.hundredths (nearTieHundredths c totalOrders)).
  { intros c Hc.
    apply (Loader.percentOf_upto_250 c totalOrders Hc); lia. }
  exists d, n, f, i.
  rewrite Hdel, Hnot,
    (Hby "DELIVERED"), (Hby "NOT_DELIVERED"), (Hby "FULFILLED"),
    (Hby "IN_TRANSIT") by (simpl; tauto).
  unfold deliveredCount, notDeliveredCount, bucket.
  rewrite Hd, Hn, Hf, Hi. cbv [default from_option Datatypes.id].
  rewrite !Hpct by lia. repeat split; auto.
Qed.

Lemma hundredths_zero : Number.of_Z 0 = Number.hundredths 0.
Proof. vm_compute. reflexivity. Qed.

(** X10. For a fetch of at most 250 orders every percentage the loader
    returns is a whole number of hundredths between 0 and 100: it is
    [h / 100], rounded to a double, for an integer [0 <= h <= 10000]. *)
Theorem percentages_lie_between_0_and_100
  (json : ResponseJson) (totalOrders : Z) (statusCounts : gmap string Z)
  (percentages : Percentages) (error : option string) :
  loader (Resolved json)
  = JS.Return (Overview totalOrders statusCounts percentages error) ->
  totalOrders <= 250 ->
  (exists h, delivered percentages = Number.hundredths h /\ 0 <= h <= 10000) /\
  (exists h, notDelivered percentages = Number.hundredths h /\
             0 <= h <= 10000) /\
  (forall key, In key statusKeys ->
     exists h, byStatus percentages !! key = Some (Number.hundredths h) /\
               0 <= h <= 10000).
Proof.
  intros H Hcap.
  pose proof (Loader.loader_overview _ _ _ _ _ H) as Hov.
  apply Loader.overview_inv in Hov.
  destruct Hov as (Htotal & _ & Hdel & Hnot & Hby & _).
  destruct (Z.eq_dec totalOrders 0) as [Hzero | Hpos].
  - rewrite Hdel, Hnot, Hzero. unfold percentOf. simpl (0 <? 0).
    rewrite hundredths_zero.
    split; [exists 0; split; [reflexivity | lia] |].
    split; [exists 0; split; [reflexivity | lia] |].
    intros key Hkey. exists 0. rewrite (Hby key Hkey), Hzero.
    unfold percentOf. simpl (0 <? 0). rewrite hundredths_zero.
    split; [reflexivity | lia].
  - assert (Ht : 0 < totalOrders <= 250) by lia.
    destruct (percentages_as_hundredths _ _ _ _ _ H Ht)
      as (d & n & f & i & Hd0 & Hn0 & Hf0 & Hi0 & Hsum
          & Hpd & Hpn & Hbd & Hbn & Hbf & Hbi).
    split; [eexists; split; [exact Hpd |] |].
    { apply nearTieHundredths_range; lia. }
    split; [eexists; split; [exact Hpn |] |].
    { apply nearTieHundredths_range; lia. }
    intros key [<- | [<- | [<- | [<- | []]]]]; eexists;
      (split; [eassumption |]); apply nearTieHundredths_range; lia.
Qed.

Lemma percentages_range_witness :
  (exists h, delivered (percentagesOf (countStatuses tieOrders) 160)
             = Number.hundredths h /\ 0 <= h <= 10000) /\
  (exists h, notDelivered (percentagesOf (countStatuses tieOrders) 160)
             = Number.hundredths h /\ 0 <= h <= 10000) /\
  (forall key, In key statusKeys ->
     exists h,
       byStatus (percentagesOf (countStatuses tieOrders) 160) !! key
       = Some (Number.hundredths h) /\ 0 <= h <= 10000).
Proof.
  apply (percentages_lie_between_0_and_100
           (responseOf tieOrders) 160 (countStatuses tieOrders)
           (percentagesOf (countStatuses tieOrders) 160) None).
  - vm_compute. reflexivity.
  - lia.
Defined.

(** X11. For a fetch of 1 to 250 orders the delivered and the
    not-delivered percentage add up to 100.00 or to 100.01 (both round up
    at a tie: 1 of 32 orders gives 3.13 and 96.88). *)
Theorem delivered_and_not_delivered_add_up
  (json : ResponseJson) (totalOrders : Z) (statusCounts : gmap string Z)
  (percentages : Percentages) (error : option string) :
  loader (Resolved json)
  = JS.Return (Overview totalOrders statusCounts percentages error) ->
  0 < totalOrders <= 250 ->
  exists hd hn : Z,
    delivered percentages = Number.hundredths hd /\
    notDelivered percentages = Number.hundredths hn /\
    (hd + hn = 10000 \/ hd + hn = 10001).
Proof.
  intros H Ht.
  destruct (percentages_as_hundredths _ _ _ _ _ H Ht)
    as (d & n & f & i & Hd0 & Hn0 & Hf0 & Hi0 & Hsum & Hpd & Hpn & _).
  exists (nearTieHundredths d totalOrders),
         (nearTieHundredths (n + f + i) totalOrders).
  split; [exact Hpd | split; [exact Hpn |]].
  destruct (nearTieHundredths_error d totalOrders ltac:(lia)) as [Hl1 Hh1].
  destruct (nearTieHundredths_error (n + f + i) totalOrders ltac:(lia))
    as [Hl2 Hh2].
  destruct (belowTie d totalOrders) eqn:Ht1;
    destruct (belowTie (n + f + i) totalOrders) eqn:Ht2;
    try apply belowTie_true in Ht1; try apply belowTie_true in Ht2; nia.
Qed.

Lemma delivered_and_not_delivered_witness :
  exists hd hn : Z,
    delivered
      (percentagesOf
         (countStatuses (deliveredOrder :: repeat unfulfilledOrder 31)) 32)
    = Number.hundredths hd /\
    notDelivered
      (percentagesOf
         (countStatuses (deliveredOrder :: repeat unfulfilledOrder 31)) 32)
    = Number.hundredths hn /\
    (hd + hn = 10000 \/ hd + hn = 10001).
Proof.
  apply (delivered_and_not_delivered_add_up
           (responseOf (deliveredOrder :: repeat unfulfilledOrder 31)) 32
           (countStatuses (deliveredOrder :: repeat unfulfilledOrder 31))
           (percentagesOf
              (countStatuses (deliveredOrder :: repeat unfulfilledOrder 31))
              32)
           None).
  - vm_compute. reflexivity.
  - lia.
Defined.

(** The tie of the example: 3.13 and 96.88. *)
Example tie_adds_up_to_more_than_100 :
  percentOf 1 32 = Number.hundredths 313 /\
  percentOf 31 32 = Number.hundredths 9688.
Proof. split; vm_compute; reflexivity. Qed.

(** Both ends of the sum by status are reached: three times 33.33 of 3
    orders, and 3.13 three times with 90.63 of 32 orders. *)
Example sums_by_status_reach_both_ends :
  percentOf 1 3 = Number.hundredths 3333 /\
  percentOf 0 3 = Number.hundredths 0 /\
  percentOf 29 32 = Number.hundredths 9063.
Proof. split; [| split]; vm_compute; reflexivity. Qed.

(** The four counts of 160 orders are not all among 23, 41, 51, 87, 97. *)
Lemma not_all_below_tie d n f i totalOrders :
  d + n + f + i = totalOrders ->
  belowTie d totalOrders && belowTie n totalOrders &&
  belowTie f totalOrders && belowTie i totalOrders = false.
Proof.
  intros Hsum. apply not_true_is_false. rewrite !andb_true_iff.
  intros [[[H1 H2] H3] H4].
  apply belowTie_true in H1, H2, H3, H4. lia.
Qed.

(** X12. For a fetch of 1 to 250 orders the four percentages by status
    add up to between 99.99 and 100.02. *)
Theorem percentages_by_status_add_up
  (json : ResponseJson) (totalOrders : Z) (statusCounts : gmap string Z)
  (percentages : Percentages) (error : option string) :
  loader (Resolved json)
  = JS.Return (Overview totalOrders statusCounts percentages error) ->
  0 < totalOrders <= 250 ->
  exists hd hn hf hi : Z,
    byStatus percentages !! "DELIVERED" = Some (Number.hundredths hd) /\
    byStatus percentages !! "NOT_DELIVERED" = Some (Number.hundredths hn) /\
    byStatus percentages !! "FULFILLED" = Some (Number.hundredths hf) /\
    byStatus percentages !! "IN_TRANSIT" = Some (Number.hundredths hi) /\
    9999 <= hd + hn + hf + hi <= 10002.
Proof.
  intros H Ht.
  destruct (percentages_as_hundredths _ _ _ _ _ H Ht)
    as (d & n & f & i & Hd0 & Hn0 & Hf0 & Hi0 & Hsum
        & _ & _ & Hbd & Hbn & Hbf & Hbi).
  exists (nearTieHundredths d totalOrders), (nearTieHundredths n totalOrders),
         (nearTieHundredths f totalOrders), (nearTieHundredths i totalOrders).
  repeat (split; [assumption |]).
  destruct (nearTieHundredths_error d totalOrders ltac:(lia)) as [Hl1 Hh1].
  destruct (nearTieHundredths_error n totalOrders ltac:(lia)) as [Hl2 Hh2].
  destruct (nearTieHundredths_error f totalOrders ltac:(lia)) as [Hl3 Hh3].
  destruct (nearTieHundredths_error i totalOrders ltac:(lia)) as [Hl4 Hh4].
  pose proof (not_all_below_tie d n f i totalOrders Hsum) as Hnot.
  set (hd := nearTieHundredths d totalOrders) in *.
  set (hn := nearTieHundredths n totalOrders) in *.
  set (hf := nearTieHundredths f totalOrders) in *.
  set (hi := nearTieHundredths i totalOrders) in *.
  assert (Hsplit : totalOrders * (hd + hn + hf + hi)
                   = totalOrders * hd + totalOrders * hn
                     + totalOrders * hf + totalOrders * hi) by ring.
  split.
  - assert (Hlow : totalOrders * 9998 < totalOrders * (hd + hn + hf + hi)).
    { destruct (belowTie d totalOrders), (belowTie n totalOrders),
        (belowTie f totalOrders), (belowTie i totalOrders);
        try discriminate Hnot; lia. }
    apply Z.mul_lt_mono_pos_l in Hlow; lia.
  - assert (Hl1' : 2 * totalOrders * hd <= 20000 * d + totalOrders) by lia.
    apply (Z.mul_le_mono_pos_l _ _ totalOrders); lia.
Qed.

Lemma percentages_by_status_witness :
  exists hd hn hf hi : Z,
    byStatus (percentagesOf (countStatuses sampleOrders) 10) !! "DELIVERED"
    = Some (Number.hundredths hd) /\
    byStatus (percentagesOf (countStatuses sampleOrders) 10) !! "NOT_DELIVERED"
    = Some (Number.hundredths hn) /\
    byStatus (percentagesOf (countStatuses sampleOrders) 10) !! "FULFILLED"
    = Some (Number.hundredths hf) /\
    byStatus (percentagesOf (countStatuses sampleOrders) 10) !! "IN_TRANSIT"
    = Some (Number.hundredths hi) /\
    9999 <= hd + hn + hf + hi <= 10002.
Proof.
  apply (percentages_by_status_add_up
           (responseOf sampleOrders) 10 (countStatuses sampleOrders)
           (percentagesOf (countStatuses sampleOrders) 10) None).
  - vm_compute. reflexivity.
  - lia.
Defined.

End LoaderLaws.

(** * Responses with errors that are not permission errors *)

Module LoaderErrors.
Import Orders.
Local Open Scope list_scope.





End LoaderErrors.

(** * Further properties of the text truncation *)

Module TruncationLaws.
Import QRCodes.

Lemma length_app (a b : string) :
  String.length (a ++ b) = (String.length a + String.length b)%nat.
Proof.
  induction a as [| c a IH]; [reflexivity |].
  change (String c a ++ b) with (String c (a ++ b)). simpl. now rewrite IH.
Qed.

Lemma substring_app_prefix (a b : string) :
  String.substring 0 (String.length a) (a ++ b) = a.
Proof.
  induction a as [| c a IH].
  - simpl. now destruct b.
  - change (String c a ++ b) with (String c (a ++ b)). simpl. now rewrite IH.
Qed.

(** What [truncate] does to a text longer than a non-negative limit. *)
Lemma truncate_long (text : string) (length : option Z) :
  0 <= default 50 length < Z.of_nat (String.length text) ->
  exists kept dropped,
    text = kept ++ dropped /\
    Z.of_nat (String.length kept) = default 50 length /\
    truncate (Some text) length = kept ++ "...".
Proof.
  intros [Hpos Hlong].
  assert (Hne : text <> "") by (intros ->; simpl in Hlong; lia).
  rewrite Truncation.truncate_nonempty by exact Hne.
  replace (Z.of_nat (String.length text) >? default 50 length) with true
    by (symmetry; rewrite Z.gtb_ltb; apply Z.ltb_lt; exact Hlong).
  rewrite Truncation.slice_prefix by lia.
  destruct (Truncation.substring_prefix (Z.to_nat (default 50 length)) text)
    as [dropped [Htext Hlen]]; [lia |].
  exists (String.substring 0 (Z.to_nat (default 50 length)) text), dropped.
  split; [exact Htext | split; [| reflexivity]].
  rewrite Hlen. apply Z2Nat.id. exact Hpos.
Qed.

Lemma truncate_short (text : string) (length : option Z) :
  Z.of_nat (String.length text) <= default 50 length ->
  truncate (Some text) length = text.
Proof.
  intros Hfit. destruct (String.eqb_spec text "") as [-> | Hne];
    [reflexivity |].
  rewrite Truncation.truncate_nonempty by exact Hne.
  replace (Z.of_nat (String.length text) >? default 50 length) with false;
    [reflexivity |].
  symmetry. rewrite Z.gtb_ltb. apply Z.ltb_ge. exact Hfit.
Qed.

(** X13. With a non-negative limit the result of [truncate] never has more
    than [length + 3] characters; a table cell truncated with the default
    limit has at most 53. *)
Theorem truncate_bounds_the_length (text : option string) (length : option Z) :
  0 <= default 50 length ->
  Z.of_nat (String.length (truncate text length)) <= default 50 length + 3.
Proof.
  intros Hpos. destruct text as [text |]; [| simpl; lia].
  destruct (Z_le_gt_dec (Z.of_nat (String.length text)) (default 50 length))
    as [Hfit | Hlong].
  - rewrite truncate_short by exact Hfit. lia.
  - destruct (truncate_long text length ltac:(lia))
      as (kept & dropped & _ & Hlen & ->).
    rewrite length_app. simpl String.length. lia.
Qed.

Lemma truncate_bounds_witness :
  Z.of_nat (String.length
              (truncate (Some "a title that is far longer than the fifty characters a cell shows")
                        None))
  <= default 50 None + 3.
Proof.
  apply truncate_bounds_the_length. vm_compute. discriminate.
Defined.

(** X14. With a non-negative limit [truncate] is idempotent: truncating a
    truncated text again, with the same limit, changes nothing (the
    ellipsis is not doubled). *)
Theorem truncate_is_idempotent (text : option string) (length : option Z) :
  0 <= default 50 length ->
  truncate (Some (truncate text length)) length = truncate text length.
Proof.
  intros Hpos. destruct text as [text |]; [| reflexivity].
  destruct (Z_le_gt_dec (Z.of_nat (String.length text)) (default 50 length))
    as [Hfit | Hlong].
  - now rewrite !(truncate_short text length Hfit).
  - destruct (truncate_long text length ltac:(lia))
      as (kept & dropped & _ & Hlen & ->).
    destruct (truncate_long (kept ++ "...") length)
      as (kept' & dropped' & Hsplit & Hlen' & ->).
    { rewrite length_app. simpl String.length. lia. }
    f_equal.
    assert (Hk : kept' = String.substring 0 (String.length kept')
                                          (kept' ++ dropped'))
      by (symmetry; apply substring_app_prefix).
    rewrite <- Hsplit in Hk.
    replace (String.length kept') with (String.length kept) in Hk by lia.
    now rewrite substring_app_prefix in Hk.
Qed.

Lemma truncate_idempotent_witness :
  truncate (Some (truncate (Some "abcdefghij") (Some 5))) (Some 5)
  = truncate (Some "abcdefghij") (Some 5).
Proof.
  apply truncate_is_idempotent. vm_compute. discriminate.
Defined.

(** X15. With a negative limit every non-empty text is cut, even a short
    one: the result is the text without its last [-length] characters
    (nothing when it has fewer), followed by "...". *)
Theorem truncate_with_negative_length (text : string) (n : Z) :
  n < 0 -> text <> "" ->
  exists kept dropped,
    text = kept ++ dropped /\
    Z.of_nat (String.length kept)
    = Z.max (Z.of_nat (String.length text) + n) 0 /\
    truncate (Some text) (Some n) = kept ++ "...".
Proof.
  intros Hneg Hne. rewrite Truncation.truncate_nonempty by exact Hne.
  simpl default.
  replace (Z.of_nat (String.length text) >? n) with true
    by (symmetry; rewrite Z.gtb_ltb; apply Z.ltb_lt; lia).
  unfold JS.slice. replace (0 <? 0) with false by reflexivity.
  replace (n <? 0) with true by (symmetry; apply Z.ltb_lt; exact Hneg).
  rewrite Z.min_l by lia. rewrite Z.sub_0_r.
  rewrite (Z.max_l (Z.max _ 0) 0) by lia. change (Z.to_nat 0) with 0%nat.
  destruct (Truncation.substring_prefix
              (Z.to_nat (Z.max (Z.of_nat (String.length text) + n) 0)) text)
    as [dropped [Htext Hlen]]; [lia |].
  eexists _, dropped. split; [exact Htext | split; [| reflexivity]].
  rewrite Hlen. lia.
Qed.

Lemma truncate_negative_witness :
  exists kept dropped,
    "abcdef" = kept ++ dropped /\
    Z.of_nat (String.length kept)
    = Z.max (Z.of_nat (String.length "abcdef") + -2) 0 /\
    truncate (Some "abcdef") (Some (-2)) = kept ++ "...".
Proof.
  apply truncate_with_negative_length; [lia | discriminate].
Defined.

End TruncationLaws.

(** * Further properties of the profile form *)

Module ProfileLaws.
Import Profile.

(** *** Trimming *)

Lemma trimStart_decomp s :
  exists lead, s = lead ++ JS.trimStart s /\ JS.isBlank lead = true.
Proof.
  induction s as [| c s IH]; [now exists "" |].
  simpl JS.trimStart. destruct (JS.isWhiteSpace c) eqn:Hc.
  - destruct IH as [lead [Hs Hlead]]. exists (String c lead). split.
    + change (String c lead ++ JS.trimStart s)
        with (String c (lead ++ JS.trimStart s)).
      now rewrite <- Hs.
    + simpl. now rewrite Hc.
  - now exists "".
Qed.

Lemma trimStart_head s c r :
  JS.trimStart s = String c r -> JS.isWhiteSpace c = false.
Proof.
  induction s as [| a s IH]; [discriminate |].
  simpl. destruct (JS.isWhiteSpace a) eqn:Ha; [exact IH |].
  intros H. injection H as <- _. exact Ha.
Qed.

Lemma trimEnd_cons c s :
  JS.trimEnd (String c s)
  = match JS.trimEnd s with
    | EmptyString =>
        if JS.isWhiteSpace c then EmptyString else String c EmptyString
    | kept => String c kept
    end.
Proof. reflexivity. Qed.

Lemma trimEnd_decomp s :
  exists trail, s = JS.trimEnd s ++ trail /\ JS.isBlank trail = true.
Proof.
  induction s as [| c s IH]; [now exists "" |].
  destruct IH as [trail [Hs Htrail]]. rewrite trimEnd_cons.
  destruct (JS.trimEnd s) as [| d kept] eqn:Hkept.
  - change ("" ++ trail) with trail in Hs. subst trail.
    destruct (JS.isWhiteSpace c) eqn:Hc.
    + exists (String c s). split; [reflexivity |]. simpl. now rewrite Hc.
    + exists s. split; [reflexivity | exact Htrail].
  - exists trail. split; [| exact Htrail].
    change (String c (String d kept) ++ trail)
      with (String c (String d kept ++ trail)).
    now rewrite <- Hs.
Qed.

Lemma trimEnd_head c s :
  JS.isWhiteSpace c = false ->
  exists r, JS.trimEnd (String c s) = String c r.
Proof.
  intros Hc. rewrite trimEnd_cons.
  destruct (JS.trimEnd s); [rewrite Hc |]; eauto.
Qed.

Lemma app_unit_inv (pre : string) (a c : ascii) (kept : string) :
  String a kept = pre ++ String c "" ->
  (pre = "" /\ kept = "" /\ a = c) \/
  (exists pre', pre = String a pre' /\ kept = pre' ++ String c "").
Proof.
  destruct pre as [| b pre].
  - change ("" ++ String c "") with (String c ""). intros H.
    injection H as -> ->. now left.
  - change (String b pre ++ String c "") with (String b (pre ++ String c "")).
    intros H. injection H as -> ->. right. now exists pre.
Qed.

Lemma trimEnd_last s :
  forall pre c, JS.trimEnd s = pre ++ String c "" -> JS.isWhiteSpace c = false.
Proof.
  induction s as [| a s IH]; intros pre c.
  - simpl. destruct pre; discriminate.
  - rewrite trimEnd_cons. destruct (JS.trimEnd s) as [| d kept] eqn:Hkept.
    + destruct (JS.isWhiteSpace a) eqn:Ha.
      * destruct pre; discriminate.
      * intros H. apply app_unit_inv in H.
        destruct H as [(_ & _ & <-) | (pre' & _ & H)]; [exact Ha |].
        destruct pre'; discriminate H.
    + intros H. apply app_unit_inv in H.
      destruct H as [(_ & H & _) | (pre' & _ & H)]; [discriminate H |].
      exact (IH pre' c H).
Qed.

Lemma trimEnd_idempotent s : JS.trimEnd (JS.trimEnd s) = JS.trimEnd s.
Proof.
  induction s as [| a s IH]; [reflexivity |].
  rewrite trimEnd_cons. destruct (JS.trimEnd s) as [| d kept] eqn:Hkept.
  - destruct (JS.isWhiteSpace a) eqn:Ha; [reflexivity |].
    rewrite trimEnd_cons. simpl JS.trimEnd. now rewrite Ha.
  - rewrite trimEnd_cons, IH. reflexivity.
Qed.

Lemma trim_idempotent s : JS.trim (JS.trim s) = JS.trim s.
Proof.
  unfold JS.trim. destruct (JS.trimStart s) as [| c r] eqn:Hstart;
    [reflexivity |].
  pose proof (trimStart_head s c r Hstart) as Hc.
  destruct (trimEnd_head c r Hc) as [r' Hr']. rewrite Hr'.
  simpl JS.trimStart. rewrite Hc, <- Hr'. apply trimEnd_idempotent.
Qed.

(** X16. [trim] removes white space at both ends and nothing else: the
    text is blank + trimmed + blank, and the trimmed text neither starts
    nor ends with a white-space character. *)
Theorem trim_removes_exactly_the_outer_white_space (s : string) :
  (exists lead trail,
      s = lead ++ JS.trim s ++ trail /\
      JS.isBlank lead = true /\ JS.isBlank trail = true) /\
  (forall c r, JS.trim s = String c r -> JS.isWhiteSpace c = false) /\
  (forall pre c, JS.trim s = pre ++ String c "" -> JS.isWhiteSpace c = false).
Proof.
  split; [| split].
  - destruct (trimStart_decomp s) as [lead [Hs Hlead]].
    destruct (trimEnd_decomp (JS.trimStart s)) as [trail [Ht Htrail]].
    exists lead, trail. unfold JS.trim. now rewrite <- Ht.
  - unfold JS.trim. intros c r H.
    destruct (JS.trimStart s) as [| a u] eqn:Hstart; [discriminate H |].
    pose proof (trimStart_head s a u Hstart) as Ha.
    destruct (trimEnd_head a u Ha) as [r' Hr'].
    rewrite Hr' in H. now injection H as <- _.
  - unfold JS.trim. apply trimEnd_last.
Qed.

(** *** Sanitized values *)

Lemma sanitizeText_some v : sanitizeText (Some v) = JS.trim (toString v).
Proof.
  unfold sanitizeText, JS.or_else, JS.truthy. simpl.
  destruct (String.eqb_spec (JS.trim (toString v)) "") as [-> | Hne];
    reflexivity.
Qed.

Lemma sanitizeText_trimmed value :
  JS.trim (sanitizeText value) = sanitizeText value.
Proof.
  destruct value as [v |]; [| reflexivity].
  rewrite sanitizeText_some. apply trim_idempotent.
Qed.

Lemma sanitizeText_fixed value :
  sanitizeText (Some (FormString (sanitizeText value))) = sanitizeText value.
Proof. rewrite ProfileForm.sanitizeText_string. apply sanitizeText_trimmed. Qed.

(** X17. The values the action returns for re-display are fixed points of
    the sanitizing: submitting them again, unchanged, gives the same
    result as the first submission. *)
Theorem resubmitting_the_returned_values_changes_nothing
  (formData : list (string * FormDataEntryValue))
  (profiles : list ProfileInput) :
  action (formOf (sanitizeText (get formData "name"))
                 (sanitizeText (get formData "age"))) profiles
  = action formData profiles.
Proof.
  unfold action.
  change (get (formOf ?a ?b) "name") with (Some (FormString a)).
  change (get (formOf ?a ?b) "age") with (Some (FormString b)).
  now rewrite !sanitizeText_fixed.
Qed.

(** *** The profile table *)

Lemma acceptedAge_checks x :
  acceptedAge x ->
  Number.isNaN x = false /\ Number.lt x (Number.of_Z 0) = false.
Proof.
  intros (negative & mathInt & Hpos & Hzero & ->). split.
  - apply NumberFacts.toNumber_not_NaN.
  - rewrite NumberFacts.toNumber_lt_0 by exact Hpos.
    destruct negative; [| reflexivity]. now rewrite (Hzero eq_refl).
Qed.

(** The row of an accepted submission. *)
Lemma accepted_row_is_valid formData :
  validate (sanitizeText (get formData "name"))
           (sanitizeText (get formData "age"))
           (Number.parseInt (sanitizeText (get formData "age"))) = ∅ ->
  validRow {| name := sanitizeText (get formData "name");
              age := Number.parseInt (sanitizeText (get formData "age")) |}.
Proof.
  intros Hempty. apply ProfileForm.validate_empty_iff in Hempty.
  destruct Hempty as (Hname & _ & negative & mathInt & Hparse & Hpos & Hzero).
  unfold validRow. simpl.
  split; [exact Hname | split; [apply sanitizeText_trimmed |]].
  exists negative, mathInt. split; [exact Hpos | split; [exact Hzero |]].
  unfold Number.parseInt. now rewrite Hparse.
Qed.

(** X18. The action never removes or changes a row of the profile table:
    the new table is the old one followed by nothing when the response is
    the 400 with errors, and by exactly one row when it is the redirect.
    That row has a trimmed, non-empty name, and its age is the Number of a
    non-negative integer (the nearest double, +Infinity when the digits
    exceed the range of doubles) or -0: it is not NaN and not below 0. *)
Theorem action_only_appends
  (formData : list (string * FormDataEntryValue))
  (profiles : list ProfileInput) :
  (exists errors values,
      action formData profiles = (BadRequest errors values, profiles) /\
      errors <> ∅) \/
  (exists row,
      action formData profiles
      = (Redirect "/app/profile", (profiles ++ [row])%list) /\
      validRow row /\
      Number.isNaN (age row) = false /\
      Number.lt (age row) (Number.of_Z 0) = false).
Proof.
  destruct (decide (validate (sanitizeText (get formData "name"))
                             (sanitizeText (get formData "age"))
                             (Number.parseInt
                                (sanitizeText (get formData "age")))
                    = ∅)) as [Hempty | Hne].
  - right. eexists. split; [now apply ProfileForm.action_valid |].
    pose proof (accepted_row_is_valid formData Hempty) as Hrow.
    split; [exact Hrow |]. apply acceptedAge_checks, Hrow.
  - left. eexists _, _. split; [now apply ProfileForm.action_invalid |].
    exact Hne.
Qed.

(** X19. Every row of the profile table stays valid: if all rows have a
    trimmed, non-empty name and an age that is the Number of a
    non-negative integer (possibly +Infinity) or -0 before the action,
    they all have after it. *)
Theorem action_keeps_the_rows_valid
  (formData : list (string * FormDataEntryValue))
  (profiles : list ProfileInput) :
  Forall validRow profiles ->
  Forall validRow (snd (action formData profiles)).
Proof.
  intros Hall.
  destruct (decide (validate (sanitizeText (get formData "name"))
                             (sanitizeText (get formData "age"))
                             (Number.parseInt
                                (sanitizeText (get formData "age")))
                    = ∅)) as [Hempty | Hne].
  - rewrite (ProfileForm.action_valid formData profiles Hempty).
    cbn [snd]. apply Forall_app. split; [exact Hall |].
    constructor; [| constructor].
    exact (accepted_row_is_valid formData Hempty).
  - now rewrite (ProfileForm.action_invalid formData profiles Hne).
Qed.

Lemma action_keeps_valid_witness :
  Forall validRow
         (snd (action (formOf " Bea " (nines 400))
                      [{| name := "Ann"; age := Number.of_Z 30 |}])).
Proof.
  apply action_keeps_the_rows_valid.
  constructor; [| constructor].
  split; [discriminate | split; [reflexivity |]].
  exists false, 30. split; [lia | split; [discriminate | reflexivity]].
Defined.

(** *** The age *)

(** A text that starts with a digit is parsed from its first character. *)
Lemma parseIntMath_digit c rest d :
  JS.digitValue c = Some d ->
  JS.parseIntMath (String c rest)
  = option_map (pair false) (JS.parseDigits (String c rest) None).
Proof.
  intros Hd.
  destruct c as [[] [] [] [] [] [] [] []];
    try (vm_compute in Hd; discriminate Hd); reflexivity.
Qed.

(** X20. An age whose text, once trimmed, starts with a decimal digit is
    always accepted, whatever follows the digits ("12abc", "3.7"): with a
    non-blank name the action creates the row, and the age it stores is
    the Number of the non-negative integer the leading digits spell (the
    nearest double, +Infinity when they exceed the range of doubles). *)
Theorem age_starting_with_a_digit_is_accepted
  (formData : list (string * FormDataEntryValue))
  (profiles : list ProfileInput) (c : ascii) (rest : string) (d : Z) :
  sanitizeText (get formData "age") = String c rest ->
  JS.digitValue c = Some d ->
  sanitizeText (get formData "name") <> "" ->
  exists n,
    JS.parseDigits (String c rest) None = Some n /\ 0 <= n /\
    action formData profiles
    = (Redirect "/app/profile",
       (profiles ++ [{| name := sanitizeText (get formData "name");
                        age := Number.of_Z n |}])%list).
Proof.
  intros Hage Hd Hname.
  assert (Hdigits : exists n, JS.parseDigits (String c rest) None = Some n
                              /\ 0 <= n).
  { simpl. rewrite Hd.
    apply NumberFacts.parseDigits_Some.
    pose proof (NumberFacts.digitValue_range c d Hd). lia. }
  destruct Hdigits as [n [Hn Hpos]].
  assert (Hmath : JS.parseIntMath (sanitizeText (get formData "age"))
                  = Some (false, n)).
  { now rewrite Hage, (parseIntMath_digit c rest d Hd), Hn. }
  assert (Hparse : Number.parseInt (sanitizeText (get formData "age"))
                   = Number.of_Z n).
  { unfold Number.parseInt. rewrite Hmath.
    apply NumberFacts.toNumber_positive. }
  exists n. split; [exact Hn | split; [exact Hpos |]].
  rewrite <- Hparse. apply ProfileForm.action_valid.
  apply ProfileForm.validate_empty_iff.
  split; [exact Hname | split].
  - rewrite Hage. discriminate.
  - exists false, n. split; [exact Hmath | split; [exact Hpos | discriminate]].
Qed.

Lemma age_digit_witness :
  exists n,
    JS.parseDigits (String "3" ".7") None = Some n /\ 0 <= n /\
    action (formOf "Ann" " 3.7 ") []
    = (Redirect "/app/profile",
       ([] ++ [{| name := sanitizeText (get (formOf "Ann" " 3.7 ") "name");
                  age := Number.of_Z n |}])%list).
Proof.
  apply (age_starting_with_a_digit_is_accepted
           (formOf "Ann" " 3.7 ") [] "3" ".7" 3).
  - reflexivity.
  - reflexivity.
  - discriminate.
Defined.

(** X21. An age that starts with a minus sign is rejected with "Age must
    be a valid non-negative number", unless it parses to zero ("-0"),
    which [parseInt] makes -0. *)
Theorem age_with_a_minus_sign
  (formData : list (string * FormDataEntryValue)) (rest : string) :
  sanitizeText (get formData "age") = String "-" rest ->
  validate (sanitizeText (get formData "name"))
           (sanitizeText (get formData "age"))
           (Number.parseInt (sanitizeText (get formData "age"))) !! "age"
  = Some "Age must be a valid non-negative number" \/
  Number.parseInt (sanitizeText (get formData "age")) = S754_zero true.
Proof.
  intros Hage.
  destruct (ProfileForm.validate_rules
              (sanitizeText (get formData "name"))
              (sanitizeText (get formData "age")))
    as (_ & Ha & _).
  rewrite Ha. clear Ha. rewrite Hage. unfold ageError, Number.parseInt.
  destruct (decide (String "-" rest = "")) as [Hempty | _];
    [discriminate Hempty |].
  change (JS.parseIntMath (String "-" rest))
    with (option_map (pair true) (JS.parseDigits rest None)).
  destruct (JS.parseDigits rest None) as [z |] eqn:Hz; [| now left].
  cbn [option_map andb].
  destruct (Z.ltb_spec 0 z) as [Hlt | Hge]; [now left |].
  right. pose proof (NumberFacts.parseDigits_nonneg rest z Hz).
  assert (z = 0) as -> by lia. reflexivity.
Qed.

Lemma age_minus_witness :
  validate (sanitizeText (get (formOf "Ann" "-5") "name"))
           (sanitizeText (get (formOf "Ann" "-5") "age"))
           (Number.parseInt (sanitizeText (get (formOf "Ann" "-5") "age")))
    !! "age"
  = Some "Age must be a valid non-negative number" \/
  Number.parseInt (sanitizeText (get (formOf "Ann" "-5") "age"))
  = S754_zero true.
Proof.
  apply (age_with_a_minus_sign (formOf "Ann" "-5") "5"). reflexivity.
Defined.

Example minus_zero_is_accepted :
  action (formOf "Ann" "-0") []
  = (Redirect "/app/profile", [{| name := "Ann"; age := S754_zero true |}]).
Proof. vm_compute. reflexivity. Qed.

End ProfileLaws.
